(** * patchwork/api/patch.py: the REST layer for patches

    A shallow embedding of [src/patchwork/api/patch.py]: the [StateField]
    converter between a [State] record and its slug, the computed fields of
    [PatchListSerializer] and [PatchDetailSerializer], and their [Meta]
    declarations, with the properties of the specification proved or
    refuted on it.

    Conventions of the embedding:
    - a Python [str] is a [string]; its characters stand for the code points
      U+0000 to U+00FF, on which [str.lower], [str.split] and the whitespace
      class are written out as CPython defines them for text;
    - a value whose type the code does not fix (the input of
      [to_internal_value], an attribute read by name) is a [pyvalue];
    - code that can raise returns a [result], an exception being a value of
      [exn]; [try]/[except] is a [match] on the raised exception;
    - the collaborators the module consumes but does not define (the rows of
      the [State] table, the request, URL reversal, the e-mail parser, the
      fields the framework derives from the model) are records and
      functions handed to the code, never constants;
    - the lookup [name__iexact] is equality of the lowercased strings, and
      the error messages are the untranslated templates. *)

From Stdlib Require Import String Ascii ZArith NArith List Lia.
From stdpp Require Import base gmap strings list.

Local Open Scope Z_scope.

(* ===================================================================== *)
(** ** Python strings *)
(* ===================================================================== *)

Module Str.

(** The code point of a character. *)
Definition ord (c : ascii) : N := N_of_ascii c.

Definition between (lo hi n : N) : bool := (N.leb lo n && N.leb n hi)%bool.

(** [str.isspace] on a code point below U+0100: TAB..CR, FS..US, SPACE,
    NEL and NBSP.  These are the separators of [str.split()]. *)
Definition is_space (c : ascii) : bool :=
  let n := ord c in
  (between 9 13 n || between 28 32 n || N.eqb n 133 || N.eqb n 160)%bool.

(** An upper-case letter below U+0100: A..Z and the Latin-1 capitals
    U+00C0..U+00DE without the multiplication sign U+00D7. *)
Definition is_upper (c : ascii) : bool :=
  let n := ord c in
  (between 65 90 n || (between 192 222 n && negb (N.eqb n 215)))%bool.

Definition lower_char (c : ascii) : ascii :=
  if is_upper c then ascii_of_N (ord c + 32) else c.

(** [s.lower()] *)
Fixpoint lower (s : string) : string :=
  match s with
  | EmptyString => EmptyString
  | String c s' => String (lower_char c) (lower s')
  end.

(** ASCII letters, decimal digits and the underscore: the characters the
    docstring of [StateField] allows in a [State] name besides the space. *)
Definition is_letter (c : ascii) : bool :=
  let n := ord c in (between 65 90 n || between 97 122 n)%bool.

Definition is_digit (c : ascii) : bool := between 48 57 (ord c).

Definition is_word_char (c : ascii) : bool :=
  (is_letter c || is_digit c || Ascii.eqb c "_")%bool.

(** [sep.join(parts)] *)
Fixpoint join (sep : string) (parts : list string) : string :=
  match parts with
  | [] => ""
  | [p] => p
  | p :: rest => p +:+ sep +:+ join sep rest
  end.

(** The loop of [s.split(sep)] for a separator of one character: [cur] is
    the piece being read.  Every occurrence of the separator closes a
    piece, so empty pieces are kept and the result is never empty. *)
Fixpoint split_on_go (sep : ascii) (cur : string) (s : string) : list string :=
  match s with
  | EmptyString => [cur]
  | String c s' =>
      if Ascii.eqb c sep then cur :: split_on_go sep "" s'
      else split_on_go sep (cur +:+ String c "") s'
  end.

(** [s.split(sep)], [sep] one character long *)
Definition split_on (sep : ascii) (s : string) : list string :=
  split_on_go sep "" s.

(** A finished word, if any: [s.split()] never yields an empty piece. *)
Definition emit (cur : string) : list string :=
  match cur with
  | EmptyString => []
  | _ => [cur]
  end.

(** The loop of [s.split()]: [cur] is the word being read; a whitespace
    character closes it. *)
Fixpoint split_go (cur : string) (s : string) : list string :=
  match s with
  | EmptyString => emit cur
  | String c s' =>
      if is_space c then emit cur ++ split_go "" s'
      else split_go (cur +:+ String c "") s'
  end.

(** [s.split()]: split at runs of whitespace, dropping empty pieces *)
Definition split (s : string) : list string := split_go "" s.

(** [s.replace(old, new)] for single characters; the specification side of
    [format_state_name] and of the slug. *)
Fixpoint replace_char (old new : ascii) (s : string) : string :=
  match s with
  | EmptyString => EmptyString
  | String c s' =>
      String (if Ascii.eqb c old then new else c) (replace_char old new s')
  end.

(** Every character of [s] satisfies [p]. *)
Fixpoint forallb (p : ascii -> bool) (s : string) : bool :=
  match s with
  | EmptyString => true
  | String c s' => (p c && forallb p s')%bool
  end.


(** [str.format] with keyword arguments, for templates whose replacement
    fields are plain names: text outside braces is copied, [{name}] is
    replaced by the keyword argument of that name, and a name that is not
    passed raises [KeyError] (here [None]).  [field] is the name being read
    inside braces, if any. *)
Fixpoint format_go (kwargs : list (string * string)) (field : option string)
    (t : string) : option string :=
  match t with
  | EmptyString =>
      match field with
      | None => Some ""
      | Some _ => None
      end
  | String c t' =>
      match field with
      | None =>
          if Ascii.eqb c "{" then format_go kwargs (Some "") t'
          else option_map (String c) (format_go kwargs None t')
      | Some f =>
          if Ascii.eqb c "}" then
            match List.find (fun kv => String.eqb (fst kv) f) kwargs with
            | Some kv =>
                option_map (fun r => snd kv +:+ r) (format_go kwargs None t')
            | None => None
            end
          else format_go kwargs (Some (f +:+ String c "")) t'
      end
  end.

Definition format (t : string) (kwargs : list (string * string))
    : option string :=
  format_go kwargs None t.

End Str.

(* ===================================================================== *)
(** ** Python values, exceptions and results *)
(* ===================================================================== *)

Set Warnings "-register-all".

(** The values a request body decodes to, and byte strings.  A float is
    kept as the 64 bits of its IEEE 754 double. *)
Inductive pyvalue : Type :=
  | PyNone
  | PyBool (b : bool)
  | PyInt (z : Z)
  | PyFloat (bits : Z)
  | PyStr (s : string)
  | PyBytes (b : string)
  | PyList (l : list pyvalue)
  | PyDict (d : gmap string pyvalue).

(** [type(v).__name__] *)
Definition type_name (v : pyvalue) : string :=
  match v with
  | PyNone => "NoneType"
  | PyBool _ => "bool"
  | PyInt _ => "int"
  | PyFloat _ => "float"
  | PyStr _ => "str"
  | PyBytes _ => "bytes"
  | PyList _ => "list"
  | PyDict _ => "dict"
  end.

(** [bool(v)] for an optional string: [None] and [''] are false. *)
Definition truthy_str (v : option string) : bool :=
  match v with
  | None | Some EmptyString => false
  | Some _ => true
  end.

(** The exceptions this module raises, catches or lets through.
    [ValidationError detail code] is what [Field.fail] raises. *)
Inductive exn : Type :=
  | DoesNotExist
  | MultipleObjectsReturned
  | AttributeError
  | TypeError
  | ValueError
  | KeyError
  | AssertionError
  | ValidationError (detail : string) (code : string).

Inductive result (A : Type) : Type :=
  | Return (a : A)
  | Raise (e : exn).
Arguments Return {A} a.
Arguments Raise {A} e.

(** [result] is a monad: [x ← r; k] runs [k] when [r] returns and passes a
    raised exception on. *)
Global Instance result_ret : MRet result := fun A a => Return a.
Global Instance result_bind : MBind result := fun A B k r =>
  match r with
  | Return a => k a
  | Raise e => Raise e
  end.

(* ===================================================================== *)
(** ** The records of [patchwork.models] this module reads *)
(* ===================================================================== *)

Module State.
(** A row of the [State] table: its primary key and its name. *)
Record t : Type := Build { pk : Z; name : string }.
End State.

Module Tag.
(** A project tag: its name and the name of the attribute that holds its
    count on a patch. *)
Record t : Type := Build { name : string; attr_name : string }.
End Tag.

Module Project.
Record t : Type := Build { tags : list Tag.t }.
End Project.

Module Patch.
(** A patch as this module reads it.  [attrs] holds the attributes that
    are read or written by name: the remaining model columns and the tag
    counts that [with_tag_counts()] attaches. *)
Record t : Type := Build {
  id : Z;
  project : Project.t;
  state : State.t;
  headers : option string;
  combined_check_state : pyvalue;
  get_mbox_url : string;
  attrs : gmap string pyvalue
}.

(** [getattr(instance, attr)] for an attribute read by name *)
Definition getattr (instance : t) (attr : string) : result pyvalue :=
  match attrs instance !! attr with
  | Some v => Return v
  | None => Raise AttributeError
  end.
End Patch.

(** [name__iexact=data]: equality up to letter case. *)
Definition iexact (name data : string) : bool :=
  String.eqb (Str.lower name) (Str.lower data).

(** [queryset.get(name__iexact=data)]: the one matching row, [DoesNotExist]
    when there is none, [MultipleObjectsReturned] when there are several. *)
Definition get_name_iexact (queryset : list State.t) (data : string)
    : result State.t :=
  match List.filter (fun x => iexact (State.name x) data) queryset with
  | [] => Raise DoesNotExist
  | [x] => Return x
  | _ :: _ :: _ => Raise MultipleObjectsReturned
  end.

(** The request of the serializer context. *)
Record Request : Type := { build_absolute_uri : string -> string }.

(** [self.context]: the request may be missing. *)
Record Context : Type := { request : option Request }.

(** What the framework and the standard library provide: URL reversal, the
    e-mail header parser, and for a field derived from the model its
    rendering, the validation of its input and whether a full update must
    name it. *)
Record Framework : Type := {
  reverse : string -> list (string * Z) -> string;
  parsestr : string -> bool -> pyvalue;
  model_field : string -> Patch.t -> result pyvalue;
  validate_field : string -> pyvalue -> result pyvalue;
  required_field : string -> bool
}.

(* ===================================================================== *)
(** ** [format_state_name] and [StateField] *)
(* ===================================================================== *)

(** [' '.join(state.split('-'))].  Only a [str] has a [split] that takes
    ['-']: a byte string (of Python 3) refuses a [str] separator with
    [TypeError], and any other value has no attribute [split]. *)
Definition format_state_name (state : pyvalue) : result string :=
  match state with
  | PyStr s => Return (Str.join " " (Str.split_on "-" s))
  | PyBytes _ => Raise TypeError
  | _ => Raise AttributeError
  end.

Module StateField.

Definition default_error_messages : list (string * string) :=
  [ ("required", "This field is required.");
    ("invalid_choice", "Invalid state {name}. Expected one of: {choices}.");
    ("incorrect_type",
     "Incorrect type. Expected string value, received {data_type}.") ].

(** [self.fail(key, ...)] with keyword arguments: look the template up
    (untranslated), format it with the keyword arguments and raise the
    [ValidationError] with the key as its code. *)
Definition fail {A : Type} (key : string) (kwargs : list (string * string))
    : result A :=
  match
    List.find (fun kv => String.eqb (fst kv) key) default_error_messages
  with
  | None => Raise AssertionError
  | Some kv =>
      match Str.format (snd kv) kwargs with
      | None => Raise KeyError
      | Some message_string => Raise (ValidationError message_string key)
      end
  end.

(** [get_queryset(self)]: [State.objects.all()], every row of the table;
    [objects] is the content of the table. *)
Definition get_queryset (objects : list State.t) : list State.t := objects.

(** [[format_state_name(x.name) for x in self.get_queryset()]] *)
Definition choices (objects : list State.t) : result (list string) :=
  mapM (fun x => format_state_name (PyStr (State.name x)))
       (get_queryset objects).

(** [to_internal_value(self, data)].  The first statement of the [try]
    block rebinds [data]; [State.DoesNotExist] can only come from the
    second one, so its handler sees the rebound [data], while an exception
    of the first statement reaches the handlers with [data] as it was
    passed. *)
Definition to_internal_value (objects : list State.t) (data : pyvalue)
    : result State.t :=
  match format_state_name data with
  | Raise TypeError | Raise ValueError =>
      fail "incorrect_type" [("data_type", type_name data)]
  | Raise e => Raise e
  | Return data =>
      match get_name_iexact (get_queryset objects) data with
      | Return st => Return st
      | Raise DoesNotExist =>
          cs ← choices objects;
          fail "invalid_choice" [("name", data); ("choices", Str.join ", " cs)]
      | Raise TypeError | Raise ValueError =>
          fail "incorrect_type" [("data_type", type_name (PyStr data))]
      | Raise e => Raise e
      end
  end.

(** ['-'.join(obj.name.lower().split())] *)
Definition to_representation (obj : State.t) : string :=
  Str.join "-" (Str.split (Str.lower (State.name obj))).

End StateField.

(* ===================================================================== *)
(** ** The serializers *)
(* ===================================================================== *)

(** How a field of a serializer is declared in the class body. *)
Inductive declared : Type :=
  | SerializerMethodField
  | StateField_.

(** A value stored on a patch by an update. *)
Inductive stored : Type :=
  | StoredState (st : State.t)
  | StoredAttr (v : pyvalue).

(** [setattr(instance, attr, value)] as [ModelSerializer.update] does it. *)
Definition setattr (instance : Patch.t) (attr : string) (value : stored)
    : Patch.t :=
  match value with
  | StoredState st =>
      Patch.Build (Patch.id instance) (Patch.project instance) st
        (Patch.headers instance) (Patch.combined_check_state instance)
        (Patch.get_mbox_url instance) (Patch.attrs instance)
  | StoredAttr v =>
      Patch.Build (Patch.id instance) (Patch.project instance)
        (Patch.state instance) (Patch.headers instance)
        (Patch.combined_check_state instance) (Patch.get_mbox_url instance)
        (<[attr := v]> (Patch.attrs instance))
  end.

Module PatchListSerializer.

(** The fields declared in the class body. *)
Definition declared_fields : list (string * declared) :=
  [ ("mbox", SerializerMethodField);
    ("state", StateField_);
    ("tags", SerializerMethodField);
    ("check", SerializerMethodField);
    ("checks", SerializerMethodField) ].

Definition get_mbox (ctx : Context) (instance : Patch.t) : result pyvalue :=
  match request ctx with
  | None => Raise AttributeError
  | Some request =>
      Return (PyStr (build_absolute_uri request (Patch.get_mbox_url instance)))
  end.

(** The dictionary comprehension of [get_tags]: a later tag of the same
    name overwrites an earlier one. *)
Fixpoint tags_dict (instance : Patch.t) (tags : list Tag.t)
    (acc : gmap string pyvalue) : result (gmap string pyvalue) :=
  match tags with
  | [] => Return acc
  | x :: tags' =>
      v ← Patch.getattr instance (Tag.attr_name x);
      tags_dict instance tags' (<[Tag.name x := v]> acc)
  end.

Definition get_tags (instance : Patch.t) : result pyvalue :=
  match Project.tags (Patch.project instance) with
  | [] => Return PyNone
  | tags => d ← tags_dict instance tags ∅; Return (PyDict d)
  end.

Definition get_check (instance : Patch.t) : result pyvalue :=
  Return (Patch.combined_check_state instance).

Definition get_checks (fw : Framework) (ctx : Context) (instance : Patch.t)
    : result pyvalue :=
  match request ctx with
  | None => Raise AttributeError
  | Some request =>
      Return (PyStr (build_absolute_uri request
                (reverse fw "api-check-list" [("patch_id", Patch.id instance)])))
  end.

Module Meta.
Definition fields : list string :=
  [ "id"; "url"; "project"; "msgid"; "date"; "name";
    "commit_ref"; "pull_url"; "state"; "archived"; "hash";
    "submitter"; "delegate"; "mbox"; "series"; "check"; "checks";
    "tags" ].
Definition read_only_fields : list string :=
  [ "project"; "msgid"; "date"; "name"; "hash";
    "submitter"; "mbox"; "mbox"; "series"; "check";
    "checks"; "tags" ].
End Meta.

(** The value a field contributes to the representation. *)
Definition field_value (fw : Framework) (ctx : Context) (field : string)
    (instance : Patch.t) : result pyvalue :=
  if String.eqb field "mbox" then get_mbox ctx instance
  else if String.eqb field "state" then
    Return (PyStr (StateField.to_representation (Patch.state instance)))
  else if String.eqb field "tags" then get_tags instance
  else if String.eqb field "check" then get_check instance
  else if String.eqb field "checks" then get_checks fw ctx instance
  else model_field fw field instance.

End PatchListSerializer.

Module PatchDetailSerializer.

Definition declared_fields : list (string * declared) :=
  PatchListSerializer.declared_fields ++ [ ("headers", SerializerMethodField) ].

Definition get_headers (fw : Framework) (patch : Patch.t) : result pyvalue :=
  if truthy_str (Patch.headers patch) then
    match Patch.headers patch with
    | Some h => Return (parsestr fw h true)
    | None => Return PyNone
    end
  else Return PyNone.

Module Meta.
Definition fields : list string :=
  PatchListSerializer.Meta.fields ++ [ "headers"; "content"; "diff" ].
Definition read_only_fields : list string :=
  PatchListSerializer.Meta.read_only_fields ++ [ "headers"; "content"; "diff" ].
End Meta.

Definition field_value (fw : Framework) (ctx : Context) (field : string)
    (instance : Patch.t) : result pyvalue :=
  if String.eqb field "headers" then get_headers fw instance
  else PatchListSerializer.field_value fw ctx field instance.

End PatchDetailSerializer.

(** *** What the framework does with the declarations *)

Module Serializer.

(** [Serializer.to_representation]: one key per name of [Meta.fields], in
    that order, with the value its field renders. *)
Definition to_representation
    (field_value : string -> Patch.t -> result pyvalue)
    (fields : list string) (instance : Patch.t)
    : result (list (string * pyvalue)) :=
  mapM (fun f => v ← field_value f instance; Return (f, v)) fields.

(** A field is read-only when its class is ([SerializerMethodField]), or,
    for a field derived from the model, when [Meta.read_only_fields] lists
    it or it is the automatic primary key [id] or the identity link [url].
    A declared [StateField()] is writable. *)
Definition is_read_only (declared_fields : list (string * declared))
    (read_only_fields : list string) (field : string) : bool :=
  match List.find (fun kv => String.eqb (fst kv) field) declared_fields with
  | Some (_, SerializerMethodField) => true
  | Some (_, StateField_) => false
  | None =>
      (existsb (String.eqb field) read_only_fields
       || String.eqb field "id" || String.eqb field "url")%bool
  end.

Definition writable_fields (declared_fields : list (string * declared))
    (fields read_only_fields : list string) : list string :=
  List.filter (fun f => negb (is_read_only declared_fields read_only_fields f))
              fields.

(** [field.get_value(data)]: the entry of the request body under the
    field's name, if there is one. *)
Definition get_value (data : list (string * pyvalue)) (field : string)
    : option pyvalue :=
  option_map snd (List.find (fun kv => String.eqb (fst kv) field) data).

(** A field is required when it is the declared [StateField()], which has
    no default, or a model field that the model makes mandatory. *)
Definition is_required (fw : Framework) (field : string) : bool :=
  if String.eqb field "state" then true else required_field fw field.

(** The failure for a required field that the body of a full update does
    not name: [self.fail('required')] of the field. *)
Definition missing {A : Type} (field : string) : result A :=
  if String.eqb field "state" then StateField.fail "required" []
  else Raise (ValidationError "This field is required." "required").

(** [RelatedField.run_validation] for the [state] field: the empty string
    counts as [None], which a field that is not nullable refuses; any other
    input goes to [StateField.to_internal_value]. *)
Definition validate_state (queryset : list State.t) (data : pyvalue)
    : result State.t :=
  match data with
  | PyNone | PyStr EmptyString =>
      Raise (ValidationError "This field may not be null." "null")
  | _ => StateField.to_internal_value queryset data
  end.

(** Validation of the body of an update: each writable field that the body
    names is converted, [state] by [validate_state] and a model field by
    the framework; a name that is not a writable field is ignored.  A writable field that the body does not name is skipped by a
    partial update (PATCH), and by a full one (PUT) unless it is required.
    The first failure is raised. *)
Fixpoint run_validation (fw : Framework) (queryset : list State.t)
    (partial : bool) (writable : list string) (data : list (string * pyvalue))
    : result (list (string * stored)) :=
  match writable with
  | [] => Return []
  | f :: writable' =>
      match get_value data f with
      | None =>
          if (partial || negb (is_required fw f))%bool
          then run_validation fw queryset partial writable' data
          else missing f
      | Some v =>
          x ← (if String.eqb f "state"
                then st ← validate_state queryset v; Return (StoredState st)
                else v' ← validate_field fw f v; Return (StoredAttr v'));
          rest ← run_validation fw queryset partial writable' data;
          Return ((f, x) :: rest)
      end
  end.

(** The fields that the framework derives from the model: those of
    [Meta.fields] that the class body does not declare. *)
Definition model_fields (declared_fields : list (string * declared))
    (fields : list string) : list string :=
  List.filter
    (fun f => negb (existsb (fun kv => String.eqb (fst kv) f) declared_fields))
    fields.

(** [ModelSerializer.update]: set each validated attribute. *)
Definition update (instance : Patch.t) (validated_data : list (string * stored))
    : Patch.t :=
  List.fold_left (fun p kv => setattr p (fst kv) (snd kv))
    validated_data instance.

(** An update through a serializer with the given declarations: validate
    the body, then set what was validated. *)
Definition perform_update (fw : Framework) (queryset : list State.t)
    (declared_fields : list (string * declared))
    (fields read_only_fields : list string) (partial : bool)
    (instance : Patch.t) (data : list (string * pyvalue)) : result Patch.t :=
  validated_data ←
    run_validation fw queryset partial
      (writable_fields declared_fields fields read_only_fields) data;
  Return (update instance validated_data).

End Serializer.

(** The two endpoints' serializers, assembled. *)
Definition list_representation (fw : Framework) (ctx : Context)
    (instance : Patch.t) : result (list (string * pyvalue)) :=
  Serializer.to_representation (PatchListSerializer.field_value fw ctx)
    PatchListSerializer.Meta.fields instance.

Definition detail_representation (fw : Framework) (ctx : Context)
    (instance : Patch.t) : result (list (string * pyvalue)) :=
  Serializer.to_representation (PatchDetailSerializer.field_value fw ctx)
    PatchDetailSerializer.Meta.fields instance.

Definition list_update (fw : Framework) (queryset : list State.t)
    (partial : bool) (instance : Patch.t) (data : list (string * pyvalue))
    : result Patch.t :=
  Serializer.perform_update fw queryset PatchListSerializer.declared_fields
    PatchListSerializer.Meta.fields PatchListSerializer.Meta.read_only_fields
    partial instance data.

Definition detail_update (fw : Framework) (queryset : list State.t)
    (partial : bool) (instance : Patch.t) (data : list (string * pyvalue))
    : result Patch.t :=
  Serializer.perform_update fw queryset PatchDetailSerializer.declared_fields
    PatchDetailSerializer.Meta.fields PatchDetailSerializer.Meta.read_only_fields
    partial instance data.

(* ===================================================================== *)
(** ** Shapes of names *)
(* ===================================================================== *)

Definition is_hyphen (c : ascii) : bool := Ascii.eqb c "-".
Definition is_blank (c : ascii) : bool := Ascii.eqb c " ".
Definition not_space (c : ascii) : bool := negb (Str.is_space c).

(** A word: at least one character, none of them whitespace. *)
Definition is_word (w : string) : bool :=
  (negb (String.eqb w "") && Str.forallb not_space w)%bool.

(** A run of whitespace, possibly empty. *)
Definition is_spaces (s : string) : bool := Str.forallb Str.is_space s.

(** A separator: a run of at least one whitespace character. *)
Definition is_sep (s : string) : bool :=
  (negb (String.eqb s "") && is_spaces s)%bool.

(** [glue w [(s1, w1); ...; (sn, wn)]] is [w s1 w1 ... sn wn]: words with a
    separator before each word but the first. *)
Fixpoint glue (w : string) (rest : list (string * string)) : string :=
  match rest with
  | [] => w
  | (sep, w') :: rest' => w +:+ sep +:+ glue w' rest'
  end.

(** A piece of a glued string: a separator and the word after it. *)
Definition piece_ok (p : string * string) : Prop :=
  is_sep (fst p) = true ∧ is_word (snd p) = true.

(** [single_spaced_from in_word s]: in [s] a blank comes only right after a
    character of a word, there is no other whitespace, and [s] ends inside
    a word; [in_word] tells whether the character before [s] was one. *)
Fixpoint single_spaced_from (in_word : bool) (s : string) : bool :=
  match s with
  | EmptyString => in_word
  | String c s' =>
      if is_blank c then (in_word && single_spaced_from false s')%bool
      else (not_space c && single_spaced_from true s')%bool
  end.

(** Words separated by single spaces: no whitespace but the blank, no two
    blanks in a row, none first or last.  The empty name has no word. *)
Definition single_spaced (s : string) : bool :=
  match s with
  | EmptyString => true
  | _ => single_spaced_from false s
  end.



(** The slug as the specification words it: the name lowercased with each
    space replaced by a hyphen. *)
Definition spec_slug (name : string) : string :=
  Str.replace_char " " "-" (Str.lower name).

(** Three states of a stock installation. *)
Definition sample_states : list State.t :=
  [ State.Build 1 "New";
    State.Build 2 "Under Review";
    State.Build 3 "Accepted" ].

(** The tag [x] has its count attribute on the patch. *)
Definition tag_counted (instance : Patch.t) (x : Tag.t) : Prop :=
  is_Some (Patch.attrs instance !! Tag.attr_name x).

(** A patch of a project with the tags [reviewed] and [tested]. *)
Definition sample_patch : Patch.t :=
  Patch.Build 7
    (Project.Build [ Tag.Build "reviewed" "tag_1_count";
                     Tag.Build "tested" "tag_2_count" ])
    (State.Build 2 "Under Review")
    (Some "")
    (PyStr "success")
    "/patch/7/mbox/"
    (<["tag_1_count" := PyInt 3]> (<["tag_2_count" := PyInt 0]>
      (<["name" := PyStr "[PATCH] fix"]> (<["archived" := PyBool false]> ∅)))).

(** A request, and stand-ins for the framework: a model field renders the
    attribute of its name, and every input is valid as it is. *)
Definition sample_context : Context :=
  {| request :=
       Some {| build_absolute_uri := fun path => "http://example.com" +:+ path |} |}.

Definition sample_framework : Framework :=
  {| reverse := fun view kwargs => "/api/" +:+ view +:+ "/";
     parsestr := fun text headersonly => PyStr text;
     model_field := fun f instance =>
       Return (default PyNone (Patch.attrs instance !! f));
     validate_field := fun f v => Return v;
     required_field := fun f => false |}.

(** The model attributes an update can set, besides the state. *)
Definition writable_attrs : list string :=
  [ "commit_ref"; "pull_url"; "archived"; "delegate" ].

(** [x] is what validation stores for the field [f] given the input [v]:
    the row that [StateField.to_internal_value] finds for [state], what the
    framework's validation returns for a model field. *)
Definition validates (fw : Framework) (queryset : list State.t)
    (f : string) (v : pyvalue) (x : stored) : Prop :=
  if String.eqb f "state"
  then ∃ st, Serializer.validate_state queryset v = Return st
             ∧ StateField.to_internal_value queryset v = Return st
             ∧ x = StoredState st
  else ∃ v', validate_field fw f v = Return v' ∧ x = StoredAttr v'.

(* ===================================================================== *)
(** ** The views *)
(* ===================================================================== *)

Module QuerySet.

(** What a query set of patches is asked to load: whether the tag counts
    are attached, the relations fetched in advance, the relations joined
    in, and the columns left out until they are read. *)
Record t : Type := Build {
  tag_counts : bool;
  prefetched : list string;
  selected : list string;
  deferred : list string
}.

(** [Patch.objects.all()] *)
Definition all : t := Build false [] [] [].

(** Modelled from the spec: [with_tag_counts()], a method of the query set
    of [patchwork.models] that is not among the sources; it attaches the
    tag counts to each row. *)
Definition with_tag_counts (q : t) : t :=
  Build true (prefetched q) (selected q) (deferred q).

(** [q.prefetch_related(...)], [q.select_related(...)] and [q.defer(...)]
    add their arguments to what the query set already holds. *)
Definition prefetch_related (lookups : list string) (q : t) : t :=
  Build (tag_counts q) (prefetched q ++ lookups) (selected q) (deferred q).

Definition select_related (fields : list string) (q : t) : t :=
  Build (tag_counts q) (prefetched q) (selected q ++ fields) (deferred q).

Definition defer (fields : list string) (q : t) : t :=
  Build (tag_counts q) (prefetched q) (selected q) (deferred q ++ fields).

(** Whether a row of the query set comes with the column loaded. *)
Definition loads (q : t) (column : string) : bool :=
  negb (existsb (String.eqb column) (deferred q)).

End QuerySet.

Module PatchList.

Definition search_fields : list string := [ "name" ].

Definition ordering_fields : list string :=
  [ "id"; "name"; "project"; "date"; "state"; "archived"; "submitter"; "check" ].

Definition get_queryset : QuerySet.t :=
  QuerySet.defer [ "content"; "diff"; "headers" ]
    (QuerySet.select_related [ "state"; "submitter"; "delegate" ]
       (QuerySet.prefetch_related [ "series"; "check_set" ]
          (QuerySet.with_tag_counts QuerySet.all))).

End PatchList.

Module PatchDetail.

Definition get_queryset : QuerySet.t :=
  QuerySet.select_related [ "state"; "submitter"; "delegate" ]
    (QuerySet.prefetch_related [ "series"; "check_set" ]
       (QuerySet.with_tag_counts QuerySet.all)).

End PatchDetail.

(* ===================================================================== *)
(** ** More shapes of names and slugs *)
(* ===================================================================== *)

(** No character of [s] is a hyphen. *)
Definition hyphen_free (s : string) : bool :=
  Str.forallb (fun c => negb (Ascii.eqb c "-")) s.

(** A character that [str.lower] leaves as it is. *)
Definition is_lowered (c : ascii) : bool := Ascii.eqb (Str.lower_char c) c.


(** [length] of a string, as [len(s)]. *)
Definition len (s : string) : nat := String.length s.

(** A character of plain ASCII text: a code point from U+0001 to U+007F. *)
Definition is_ascii_char (c : ascii) : bool := Str.between 1 127 (Str.ord c).

(** A string of ASCII characters, none of them NUL. *)
Definition is_ascii_text (s : string) : bool := Str.forallb is_ascii_char s.

(** Lowercasing that knows the letters A to Z only, as a database does
    whose [LIKE] folds ASCII letters and no others. *)
Definition ascii_lower_char (c : ascii) : ascii :=
  if Str.between 65 90 (Str.ord c) then ascii_of_N (Str.ord c + 32) else c.

Fixpoint ascii_lower (s : string) : string :=
  match s with
  | EmptyString => EmptyString
  | String c s' => String (ascii_lower_char c) (ascii_lower s')
  end.

(** [name__iexact=data] on such a database. *)
Definition iexact_ascii (name data : string) : bool :=
  String.eqb (ascii_lower name) (ascii_lower data).

(** [to_internal_value] with the lookup [self.get_queryset().get(...)]
    left open: [get] is what the lookup does with the formatted string, so
    that it may also raise what a database driver raises.  The body is the
    one of [StateField.to_internal_value], handler by handler. *)
Definition to_internal_value_via (get : string -> result State.t)
    (objects : list State.t) (data : pyvalue) : result State.t :=
  match format_state_name data with
  | Raise TypeError | Raise ValueError =>
      StateField.fail "incorrect_type" [("data_type", type_name data)]
  | Raise e => Raise e
  | Return data =>
      match get data with
      | Return st => Return st
      | Raise DoesNotExist =>
          cs ← StateField.choices objects;
          StateField.fail "invalid_choice"
            [("name", data); ("choices", Str.join ", " cs)]
      | Raise TypeError | Raise ValueError =>
          StateField.fail "incorrect_type" [("data_type", type_name (PyStr data))]
      | Raise e => Raise e
      end
  end.

(** A patch of a project that has two tags of the same name, and a patch
    that lacks the count of its project's tag. *)
Definition twice_reviewed_patch : Patch.t :=
  Patch.Build 7
    (Project.Build [ Tag.Build "reviewed" "tag_1_count";
                     Tag.Build "reviewed" "tag_9_count" ])
    (State.Build 1 "New") None PyNone "/patch/7/mbox/"
    (<["tag_1_count" := PyInt 3]> (<["tag_9_count" := PyInt 5]> ∅)).

Definition uncounted_patch : Patch.t :=
  Patch.Build 8
    (Project.Build [ Tag.Build "reviewed" "tag_1_count" ])
    (State.Build 1 "New") None PyNone "/patch/8/mbox/" ∅.

(* ===================================================================== *)
(** ** The code on sample data *)
(* ===================================================================== *)

Example split_drops_empty_pieces :
  Str.split "  Under   Review " = ["Under"; "Review"]
  ∧ Str.split "" = [] ∧ Str.split "   " = [].
Proof. repeat split; reflexivity. Qed.

Example split_on_keeps_empty_pieces :
  Str.split_on "-" "a--b-" = ["a"; ""; "b"; ""] ∧ Str.split_on "-" "" = [""].
Proof. split; reflexivity. Qed.

Example lower_sample : Str.lower "Under Review_2" = "under review_2".
Proof. reflexivity. Qed.

Example format_sample :
  Str.format "Invalid state {name}. Expected one of: {choices}."
    [("name", "x y"); ("choices", "New, Accepted")]
  = Some "Invalid state x y. Expected one of: New, Accepted."
  ∧ Str.format "received {data_type}." [("name", "x")] = None.
Proof. split; reflexivity. Qed.

Example to_representation_sample :
  map StateField.to_representation sample_states
  = ["new"; "under-review"; "accepted"].
Proof. reflexivity. Qed.

Example to_internal_value_sample :
  StateField.to_internal_value sample_states (PyStr "under-review")
  = Return (State.Build 2 "Under Review")
  ∧ StateField.to_internal_value sample_states (PyStr "UNDER review")
    = Return (State.Build 2 "Under Review")
  ∧ StateField.to_internal_value sample_states (PyBytes "new")
    = Raise (ValidationError
               "Incorrect type. Expected string value, received bytes."
               "incorrect_type")
  ∧ StateField.to_internal_value sample_states PyNone = Raise AttributeError.
Proof. repeat split; reflexivity. Qed.

Example get_mbox_sample :
  PatchListSerializer.get_mbox sample_context sample_patch
  = Return (PyStr "http://example.com/patch/7/mbox/")
  ∧ PatchListSerializer.get_mbox {| request := None |} sample_patch
    = Raise AttributeError.
Proof. split; reflexivity. Qed.

Example detail_keys_sample :
  (r ← detail_representation sample_framework sample_context sample_patch;
   Return (map fst r))
  = Return PatchDetailSerializer.Meta.fields.
Proof. reflexivity. Qed.

(* ===================================================================== *)
(** ** Facts about strings *)
(* ===================================================================== *)

Section StrFacts.

Lemma sapp_cons (c : ascii) (a b : string) :
  String c a +:+ b = String c (a +:+ b).
Proof. reflexivity. Qed.

Lemma sapp_nil_l (s : string) : "" +:+ s = s.
Proof. reflexivity. Qed.

Lemma sapp_nil_r (s : string) : s +:+ "" = s.
Proof. induction s as [|c s IH]; [reflexivity|]. by rewrite sapp_cons, IH. Qed.

Lemma sapp_assoc (a b c : string) : (a +:+ b) +:+ c = a +:+ (b +:+ c).
Proof. induction a as [|x a IH]; [reflexivity|]. by rewrite !sapp_cons, IH. Qed.

Lemma sapp_snoc (a : string) (c : ascii) (b : string) :
  (a +:+ String c "") +:+ b = a +:+ String c b.
Proof. by rewrite sapp_assoc. Qed.

Lemma snoc_not_empty (a : string) (c : ascii) : a +:+ String c "" ≠ "".
Proof. by destruct a. Qed.

(** *** Character classes *)

Lemma is_space_lower_char c : Str.is_space (Str.lower_char c) = Str.is_space c.
Proof. by destruct c as [[] [] [] [] [] [] [] []]. Qed.

Lemma lower_char_idem c : Str.lower_char (Str.lower_char c) = Str.lower_char c.
Proof. by destruct c as [[] [] [] [] [] [] [] []]. Qed.

Lemma is_blank_lower_char c : is_blank (Str.lower_char c) = is_blank c.
Proof. by destruct c as [[] [] [] [] [] [] [] []]. Qed.

Lemma is_hyphen_lower_char c : is_hyphen (Str.lower_char c) = is_hyphen c.
Proof. by destruct c as [[] [] [] [] [] [] [] []]. Qed.

Lemma word_char_not_space c : Str.is_word_char c = true → Str.is_space c = false.
Proof. by destruct c as [[] [] [] [] [] [] [] []]. Qed.


Lemma blank_is_space c : is_blank c = true → Str.is_space c = true.
Proof. intros ->%Ascii.eqb_eq. reflexivity. Qed.


(** *** [lower] *)

Lemma lower_app a b : Str.lower (a +:+ b) = Str.lower a +:+ Str.lower b.
Proof.
  induction a as [|c a IH]; [reflexivity|].
  rewrite sapp_cons. cbn. by rewrite IH.
Qed.


Lemma lower_empty s : Str.lower s = "" ↔ s = "".
Proof. by destruct s. Qed.

Lemma forallb_lower (p : ascii → bool) s :
  (∀ c, p (Str.lower_char c) = p c) →
  Str.forallb p (Str.lower s) = Str.forallb p s.
Proof.
  intros Hp. induction s as [|c s IH]; [reflexivity|].
  cbn. by rewrite Hp, IH.
Qed.

Lemma is_spaces_lower s : is_spaces (Str.lower s) = is_spaces s.
Proof. apply forallb_lower, is_space_lower_char. Qed.

Lemma is_word_lower w : is_word (Str.lower w) = is_word w.
Proof.
  unfold is_word. f_equal.
  - by destruct w.
  - apply forallb_lower. intros c. unfold not_space.
    by rewrite is_space_lower_char.
Qed.


(** *** [join] *)

Lemma join_cons sep p rest :
  rest ≠ [] → Str.join sep (p :: rest) = p +:+ sep +:+ Str.join sep rest.
Proof. by destruct rest. Qed.

(** *** [split_on] and [replace_char] *)

Lemma split_on_go_not_nil sep cur s : Str.split_on_go sep cur s ≠ [].
Proof.
  revert cur. induction s as [|c s IH]; intros cur; cbn; [done|].
  by destruct (Ascii.eqb c sep).
Qed.

(** Splitting at a character and joining with another replaces the one by
    the other. *)
Lemma join_split_on_go old new cur s :
  Str.join (String new "") (Str.split_on_go old cur s)
  = cur +:+ Str.replace_char old new s.
Proof.
  revert cur. induction s as [|c s IH]; intros cur; cbn.
  - by rewrite sapp_nil_r.
  - destruct (Ascii.eqb c old).
    + rewrite join_cons by apply split_on_go_not_nil.
      by rewrite IH.
    + by rewrite IH, sapp_snoc.
Qed.

Lemma join_split_on old new s :
  Str.join (String new "") (Str.split_on old s) = Str.replace_char old new s.
Proof. unfold Str.split_on. by rewrite join_split_on_go. Qed.


Lemma replace_char_id old new s :
  Str.forallb (fun c => negb (Ascii.eqb c old)) s = true →
  Str.replace_char old new s = s.
Proof.
  induction s as [|c s IH]; [reflexivity|].
  cbn. intros [Hc Hs]%andb_true_iff. rewrite IH by done.
  apply negb_true_iff in Hc. by rewrite Hc.
Qed.

Lemma replace_char_changes old new s :
  old ≠ new →
  Str.replace_char old new s = s →
  Str.forallb (fun c => negb (Ascii.eqb c old)) s = true.
Proof.
  intros Hne. induction s as [|c s IH]; [reflexivity|].
  cbn. intros [= Hc Hs]. rewrite IH by done.
  destruct (Ascii.eqb_spec c old) as [->|]; [congruence | reflexivity].
Qed.

Lemma forallb_impl (p q : ascii → bool) s :
  (∀ c, p c = true → q c = true) →
  Str.forallb p s = true → Str.forallb q s = true.
Proof.
  intros Hpq. induction s as [|c s IH]; [reflexivity|].
  cbn. intros [Hc Hs]%andb_true_iff. by rewrite (Hpq _ Hc), IH.
Qed.

(** *** [split] *)

Lemma emit_not_empty cur : cur ≠ "" → Str.emit cur = [cur].
Proof. by destruct cur. Qed.

Lemma emit_word w : is_word w = true → Str.emit w = [w].
Proof. by destruct w. Qed.

Lemma split_go_word w cur rest :
  Str.forallb not_space w = true →
  Str.split_go cur (w +:+ rest) = Str.split_go (cur +:+ w) rest.
Proof.
  revert cur. induction w as [|c w IH]; intros cur.
  - by rewrite sapp_nil_r.
  - cbn. intros [Hc Hw]%andb_true_iff. apply negb_true_iff in Hc.
    rewrite sapp_cons. cbn. rewrite Hc, IH by done. by rewrite sapp_snoc.
Qed.

Lemma split_go_spaces sp rest :
  is_spaces sp = true → Str.split_go "" (sp +:+ rest) = Str.split_go "" rest.
Proof.
  induction sp as [|c sp IH]; [done|].
  cbn. intros [Hc Hsp]%andb_true_iff. rewrite sapp_cons. cbn.
  by rewrite Hc, IH.
Qed.

Lemma split_go_sep sep cur rest :
  is_sep sep = true →
  Str.split_go cur (sep +:+ rest) = Str.emit cur ++ Str.split_go "" rest.
Proof.
  destruct sep as [|c sep]; [done|].
  cbn. intros [Hc Hsp]%andb_true_iff. rewrite sapp_cons. cbn.
  by rewrite Hc, split_go_spaces.
Qed.

Lemma split_go_trail cur trail :
  is_spaces trail = true → Str.split_go cur trail = Str.emit cur.
Proof.
  destruct trail as [|c trail]; [done|]. intros Htrail.
  rewrite <- (sapp_nil_r (String c trail)).
  rewrite split_go_sep by done. cbn. by rewrite List.app_nil_r.
Qed.

Lemma split_go_not_nil cur s : cur ≠ "" → Str.split_go cur s ≠ [].
Proof.
  revert cur. induction s as [|c s IH]; intros cur Hcur; cbn.
  - by rewrite emit_not_empty.
  - destruct (Str.is_space c).
    + by rewrite emit_not_empty.
    + apply IH, snoc_not_empty.
Qed.

(** *** [glue] *)

Lemma glue_app_assoc w sep w' rest trail :
  glue w ((sep, w') :: rest) +:+ trail = w +:+ sep +:+ (glue w' rest +:+ trail).
Proof. cbn. by rewrite !sapp_assoc. Qed.

(** The words of a glued string are the words that were glued. *)
Lemma split_glue rest w lead trail :
  is_spaces lead = true → is_word w = true → Forall piece_ok rest →
  is_spaces trail = true →
  Str.split (lead +:+ glue w rest +:+ trail) = w :: map snd rest.
Proof.
  intros Hlead Hw Hrest Htrail. unfold Str.split.
  rewrite split_go_spaces by done. clear lead Hlead.
  revert w Hw. induction Hrest as [|[sep w'] rest [Hsep Hw'] _ IH]; intros w Hw.
  - cbn. apply andb_true_iff in Hw as Hw2. destruct Hw2 as [_ Hw2].
    rewrite split_go_word by done. rewrite sapp_nil_l.
    by rewrite split_go_trail, emit_word.
  - rewrite glue_app_assoc.
    apply andb_true_iff in Hw as Hw2. destruct Hw2 as [_ Hw2].
    rewrite split_go_word by done. rewrite sapp_nil_l.
    rewrite split_go_sep by done. rewrite emit_word by done.
    cbn in *. by rewrite IH.
Qed.

Lemma join_glue (sep : string) (rest : list (string * string)) w :
  Str.join sep (w :: map snd rest)
  = glue w (map (fun p => (sep, snd p)) rest).
Proof.
  revert w. induction rest as [|[s w'] rest IH]; intros w; [done|].
  cbn [map snd glue]. rewrite <- IH. by apply join_cons.
Qed.

Lemma lower_glue (rest : list (string * string)) w :
  Str.lower (glue w rest)
  = glue (Str.lower w) (map (fun p => (Str.lower (fst p), Str.lower (snd p))) rest).
Proof.
  revert w. induction rest as [|[s w'] rest IH]; intros w; [done|].
  cbn [map fst snd glue]. by rewrite !lower_app, IH.
Qed.

Lemma piece_ok_lower rest :
  Forall piece_ok rest →
  Forall piece_ok (map (fun p => (Str.lower (fst p), Str.lower (snd p))) rest).
Proof.
  induction 1 as [|[s w] rest [Hs Hw] _ IH]; constructor; [|done].
  split; cbn in *.
  - unfold is_sep in *. apply andb_true_iff in Hs as [Hs1 Hs2].
    fold (is_spaces (Str.lower s)). rewrite is_spaces_lower, Hs2.
    by destruct s.
  - by rewrite is_word_lower.
Qed.

(** *** Names with single spaces *)

Lemma snoc_eqb_empty cur c : String.eqb (cur +:+ String c "") "" = false.
Proof. by destruct cur. Qed.

Lemma join_split_go_single_spaced s cur :
  single_spaced_from (negb (String.eqb cur "")) s = true →
  Str.join "-" (Str.split_go cur s) = cur +:+ Str.replace_char " " "-" s.
Proof.
  revert cur. induction s as [|c s IH]; intros cur; cbn.
  - intros Hcur. rewrite sapp_nil_r. by destruct cur.
  - destruct (is_blank c) eqn:Hc.
    + intros [Hcur Hs]%andb_true_iff.
      rewrite (blank_is_space _ Hc).
      fold (is_blank c). rewrite Hc.
      rewrite emit_not_empty by (by destruct cur).
      cbn [app]. rewrite join_cons.
      * by rewrite (IH ""), sapp_nil_l.
      * destruct s as [|c' s]; [done|]. cbn in Hs |- *.
        destruct (is_blank c'); [done|].
        apply andb_true_iff in Hs as [Hc' _].
        apply negb_true_iff in Hc'. rewrite Hc'.
        by apply split_go_not_nil.
    + intros [Hns Hs]%andb_true_iff. apply negb_true_iff in Hns.
      rewrite Hns. fold (is_blank c). rewrite Hc.
      rewrite IH by (by rewrite snoc_eqb_empty). by rewrite sapp_snoc.
Qed.

(** On a name of words separated by single spaces, splitting at
    whitespace and joining with hyphens replaces each space by a hyphen. *)
Lemma join_split_single_spaced s :
  single_spaced s = true →
  Str.join "-" (Str.split s) = Str.replace_char " " "-" s.
Proof.
  destruct s as [|c s]; [done|]. intros Hs.
  unfold Str.split. by rewrite join_split_go_single_spaced.
Qed.

Lemma single_spaced_from_lower b s :
  single_spaced_from b (Str.lower s) = single_spaced_from b s.
Proof.
  revert b. induction s as [|c s IH]; intros b; [done|].
  cbn. rewrite is_blank_lower_char. unfold not_space.
  by rewrite is_space_lower_char, !IH.
Qed.

Lemma single_spaced_lower s : single_spaced (Str.lower s) = single_spaced s.
Proof.
  destruct s as [|c s]; [done|].
  apply (single_spaced_from_lower false (String c s)).
Qed.

Lemma no_hyphen_lower s :
  Str.forallb (fun c => negb (Ascii.eqb c "-")) (Str.lower s)
  = Str.forallb (fun c => negb (Ascii.eqb c "-")) s.
Proof.
  apply forallb_lower. intros c. f_equal. apply is_hyphen_lower_char.
Qed.

End StrFacts.

(* ===================================================================== *)
(** ** Facts about [StateField] *)
(* ===================================================================== *)

Section StateFieldFacts.

(** On a [str], [format_state_name] replaces each hyphen by a space. *)
Lemma format_state_name_str s :
  format_state_name (PyStr s) = Return (Str.replace_char "-" " " s).
Proof. cbn. by rewrite (join_split_on "-" " "). Qed.

Lemma choices_eq queryset :
  StateField.choices queryset
  = Return (map (fun x => Str.replace_char "-" " " (State.name x)) queryset).
Proof.
  unfold StateField.choices, StateField.get_queryset.
  induction queryset as [|x queryset IH]; [done|].
  cbn [mapM map]. rewrite IH, format_state_name_str. reflexivity.
Qed.

(** The message of [invalid_choice], formatted. *)
Lemma fail_invalid_choice {A} name choices :
  @StateField.fail A "invalid_choice" [("name", name); ("choices", choices)]
  = Raise (ValidationError
             ("Invalid state " +:+ name +:+ ". Expected one of: "
              +:+ choices +:+ ".")
             "invalid_choice").
Proof. reflexivity. Qed.

Lemma fail_incorrect_type {A} data_type :
  @StateField.fail A "incorrect_type" [("data_type", data_type)]
  = Raise (ValidationError
             ("Incorrect type. Expected string value, received "
              +:+ data_type +:+ ".")
             "incorrect_type").
Proof. reflexivity. Qed.





(** When the lookup finds no row, every row fails the test. *)
Lemma get_name_iexact_does_not_exist queryset data :
  get_name_iexact queryset data = Raise DoesNotExist →
  ∀ st, In st queryset → iexact (State.name st) data = false.
Proof.
  unfold get_name_iexact. intros H st Hin.
  destruct (iexact (State.name st) data) eqn:Hst; [|done].
  assert (In st (List.filter (fun x => iexact (State.name x) data) queryset))
    as Hf by (apply filter_In; done).
  destruct (List.filter _ queryset) as [|? [|? ?]]; [done|done|done].
Qed.

(** The lookup raises nothing but its two exceptions. *)
Lemma get_name_iexact_raises queryset data e :
  get_name_iexact queryset data = Raise e →
  e = DoesNotExist ∨ e = MultipleObjectsReturned.
Proof.
  unfold get_name_iexact.
  destruct (List.filter _ queryset) as [|? [|? ?]]; intros [= <-]; auto.
Qed.

Lemma to_representation_single_spaced obj :
  single_spaced (State.name obj) = true →
  StateField.to_representation obj = spec_slug (State.name obj).
Proof.
  intros Hs. unfold StateField.to_representation, spec_slug.
  apply join_split_single_spaced. by rewrite single_spaced_lower.
Qed.



End StateFieldFacts.

Section SlugFacts.


Lemma glue_cons c w rest : glue (String c w) rest = String c (glue w rest).
Proof. by destruct rest as [|[sep w'] rest]. Qed.

Lemma string_cons_neq c s : String c s ≠ s.
Proof. induction s as [|c' s IH]; [done|]. intros [= -> H]. by apply IH. Qed.

(** The slug of a name made of words and whitespace: the lowercased words
    joined by hyphens. *)
Lemma to_representation_glue pk lead w rest trail :
  is_spaces lead = true → is_word w = true → Forall piece_ok rest →
  is_spaces trail = true →
  StateField.to_representation (State.Build pk (lead +:+ glue w rest +:+ trail))
  = glue (Str.lower w) (map (fun p => ("-", Str.lower (snd p))) rest).
Proof.
  intros Hlead Hw Hrest Htrail. unfold StateField.to_representation. cbn.
  rewrite !lower_app, lower_glue.
  rewrite split_glue.
  - rewrite join_glue. f_equal. by rewrite map_map.
  - by rewrite is_spaces_lower.
  - by rewrite is_word_lower.
  - by apply piece_ok_lower.
  - by rewrite is_spaces_lower.
Qed.

(** A name of whitespace only has the empty slug. *)
Lemma to_representation_spaces pk s :
  is_spaces s = true → StateField.to_representation (State.Build pk s) = "".
Proof.
  intros Hs. unfold StateField.to_representation, Str.split. cbn.
  by rewrite split_go_trail by (by rewrite is_spaces_lower).
Qed.

(** One more blank in front does not change the slug. *)
Lemma to_representation_leading_blank pk pk' s :
  StateField.to_representation (State.Build pk' (String " " s))
  = StateField.to_representation (State.Build pk s).
Proof. reflexivity. Qed.

(** Every name is whitespace only, or words glued by whitespace with
    whitespace around them. *)
Lemma name_shape s :
  is_spaces s = true
  ∨ ∃ lead w rest trail,
      s = lead +:+ glue w rest +:+ trail
      ∧ is_spaces lead = true ∧ is_word w = true
      ∧ Forall piece_ok rest ∧ is_spaces trail = true.
Proof.
  induction s as [|c s IH]; [by left|].
  destruct (Str.is_space c) eqn:Hc.
  - destruct IH as [Hs|(lead & w & rest & trail & -> & Hlead & Hw & Hrest & Htrail)].
    + left. cbn. by rewrite Hc.
    + right. exists (String c lead), w, rest, trail.
      repeat split; try done. cbn. by rewrite Hc.
  - assert (is_word (String c "") = true) as Hword.
    { cbn. unfold not_space. by rewrite Hc. }
    destruct IH as [Hs|(lead & w & rest & trail & -> & Hlead & Hw & Hrest & Htrail)].
    + right. by exists "", (String c ""), [], s.
    + right. destruct lead as [|l lead].
      * exists "", (String c w), rest, trail.
        repeat split; try done.
        -- by rewrite glue_cons.
        -- cbn. unfold not_space at 1. rewrite Hc. cbn.
           by apply andb_true_iff in Hw as [_ Hw].
      * exists "", (String c ""), ((String l lead, w) :: rest), trail.
        repeat split; try done.
        -- rewrite sapp_nil_l, glue_app_assoc. reflexivity.
        -- by constructor.
Qed.

End SlugFacts.

(* ===================================================================== *)
(** ** The claims about [StateField] *)
(* ===================================================================== *)







(** C3 fails on the code: an integer has no [split], the [AttributeError]
    that [format_state_name] raises is not among the exceptions the
    [try] block catches, and it leaves [to_internal_value] as it is. *)
Theorem to_internal_value_int_attribute_error (queryset : list State.t) :
  StateField.to_internal_value queryset (PyInt 123) = Raise AttributeError.
Proof. reflexivity. Qed.

(** The same for every value that is neither a [str] nor a byte string;
    only a byte string reaches [incorrect_type]. *)
Lemma to_internal_value_non_string (queryset : list State.t) (data : pyvalue) :
  match data with
  | PyStr _ => True
  | PyBytes _ =>
      StateField.to_internal_value queryset data
      = Raise (ValidationError
                 "Incorrect type. Expected string value, received bytes."
                 "incorrect_type")
  | _ => StateField.to_internal_value queryset data = Raise AttributeError
  end.
Proof. by destruct data. Qed.

(** C5, as amended.  When [to_internal_value] fails with [invalid_choice],
    its input was a string and the name in the message is that string with
    each hyphen replaced by a space; it is the string as supplied exactly
    when the string has no hyphen. *)
Theorem invalid_choice_names_formatted_input
    (queryset : list State.t) (data : pyvalue) (detail : string) :
  StateField.to_internal_value queryset data
  = Raise (ValidationError detail "invalid_choice") →
  ∃ s cs,
    data = PyStr s
    ∧ StateField.choices queryset = Return cs
    ∧ StateField.to_internal_value queryset data
      = StateField.fail "invalid_choice"
          [("name", Str.replace_char "-" " " s); ("choices", Str.join ", " cs)]
    ∧ detail = "Invalid state " +:+ Str.replace_char "-" " " s
               +:+ ". Expected one of: " +:+ Str.join ", " cs +:+ "."
    ∧ (Str.replace_char "-" " " s = s
       ↔ Str.forallb (fun c => negb (Ascii.eqb c "-")) s = true).
Proof.
  intros Hfail.
  destruct data as [| | | |s| | |]; try discriminate Hfail.
  exists s, (map (fun x => Str.replace_char "-" " " (State.name x)) queryset).
  split; [done|]. split; [apply choices_eq|].
  revert Hfail. unfold StateField.to_internal_value, StateField.get_queryset.
  rewrite format_state_name_str.
  destruct (get_name_iexact queryset _) as [st|e] eqn:Hget; [discriminate|].
  apply get_name_iexact_raises in Hget as [-> | ->]; [|discriminate].
  rewrite choices_eq. cbn [mbind result_bind].
  rewrite fail_invalid_choice. intros [= <-].
  repeat split; [apply replace_char_changes; done | apply replace_char_id].
Qed.

Lemma invalid_choice_names_formatted_input_witness :
  ∃ s cs,
    PyStr "does-not-exist" = PyStr s
    ∧ StateField.choices sample_states = Return cs
    ∧ StateField.to_internal_value sample_states (PyStr "does-not-exist")
      = StateField.fail "invalid_choice"
          [("name", Str.replace_char "-" " " s); ("choices", Str.join ", " cs)]
    ∧ "Invalid state does not exist. Expected one of: New, Under Review, Accepted."
      = "Invalid state " +:+ Str.replace_char "-" " " s
        +:+ ". Expected one of: " +:+ Str.join ", " cs +:+ "."
    ∧ (Str.replace_char "-" " " s = s
       ↔ Str.forallb (fun c => negb (Ascii.eqb c "-")) s = true).
Proof.
  apply (invalid_choice_names_formatted_input sample_states
           (PyStr "does-not-exist")).
  reflexivity.
Defined.

(** C5, as stated, fails: for the input [does-not-exist] the message names
    [does not exist]. *)
Lemma invalid_choice_name_counterexample :
  StateField.to_internal_value sample_states (PyStr "does-not-exist")
  = StateField.fail "invalid_choice"
      [("name", "does not exist"); ("choices", "New, Under Review, Accepted")]
  ∧ ¬ ∃ cs, StateField.to_internal_value sample_states (PyStr "does-not-exist")
            = StateField.fail "invalid_choice"
                [("name", "does-not-exist"); ("choices", cs)].
Proof.
  split; [reflexivity|]. intros [cs H]. vm_compute in H. discriminate H.
Qed.

(** C6, as amended.  [to_representation] is a function of the record and
    returns for every record; when the name is words separated by single
    spaces, what it returns is exactly the name lowercased with each space
    replaced by a hyphen. *)
Theorem to_representation_lower_hyphenated (obj : State.t) :
  single_spaced (State.name obj) = true →
  StateField.to_representation obj
  = Str.replace_char " " "-" (Str.lower (State.name obj)).
Proof. apply to_representation_single_spaced. Qed.

Lemma to_representation_lower_hyphenated_witness :
  StateField.to_representation (State.Build 2 "Under Review")
  = Str.replace_char " " "-" (Str.lower "Under Review").
Proof.
  apply (to_representation_lower_hyphenated (State.Build 2 "Under Review")).
  reflexivity.
Defined.

(** C6, as stated, fails: two spaces in a row between two words give one
    hyphen, not two. *)
Lemma to_representation_lower_hyphenated_counterexample :
  StateField.to_representation (State.Build 2 "Under  Review") = "under-review"
  ∧ spec_slug "Under  Review" = "under--review"
  ∧ StateField.to_representation (State.Build 2 "Under  Review")
    ≠ spec_slug "Under  Review".
Proof. repeat split; try reflexivity. discriminate. Qed.

(** C10.  Let a name be words glued by runs of whitespace, with whitespace
    (maybe none) before and after.  Its slug is the lowercased words joined
    by single hyphens: every run between two words gives one hyphen, the
    whitespace before and after gives nothing, and a name of whitespace only
    has the empty slug.  So the name, the same words with single spaces, and
    the name with one more blank in front, which is a different name, all
    have the same slug. *)
Theorem to_representation_collapses_whitespace
    (pk : Z) (lead w : string) (rest : list (string * string)) (trail : string) :
  is_spaces lead = true →
  is_word w = true →
  Forall piece_ok rest →
  is_spaces trail = true →
  StateField.to_representation (State.Build pk (lead +:+ glue w rest +:+ trail))
  = glue (Str.lower w) (map (fun p => ("-", Str.lower (snd p))) rest)
  ∧ StateField.to_representation (State.Build pk (lead +:+ glue w rest +:+ trail))
    = StateField.to_representation
        (State.Build pk (glue w (map (fun p => (" ", snd p)) rest)))
  ∧ StateField.to_representation (State.Build pk lead) = ""
  ∧ (String " " (lead +:+ glue w rest +:+ trail) ≠ lead +:+ glue w rest +:+ trail
     ∧ StateField.to_representation
         (State.Build pk (String " " (lead +:+ glue w rest +:+ trail)))
       = StateField.to_representation
           (State.Build pk (lead +:+ glue w rest +:+ trail))).
Proof.
  intros Hlead Hw Hrest Htrail.
  rewrite to_representation_glue by done. split; [done|]. split.
  - rewrite <- (sapp_nil_r (glue w (map _ rest))).
    rewrite <- (sapp_nil_l (glue w (map _ rest) +:+ "")).
    rewrite to_representation_glue; try done.
    + f_equal. by rewrite map_map.
    + clear Hlead Htrail Hw.
      induction Hrest as [|[sep w'] rest [_ Hw'] _ IH]; constructor; done.
  - split; [by apply to_representation_spaces|].
    split; [apply string_cons_neq|].
    rewrite (to_representation_leading_blank pk pk).
    by rewrite to_representation_glue.
Qed.

Lemma to_representation_collapses_whitespace_witness :
  StateField.to_representation (State.Build 2 "  Under   Review ") = "under-review"
  ∧ StateField.to_representation (State.Build 2 "  Under   Review ")
    = StateField.to_representation (State.Build 2 "Under Review")
  ∧ "  Under   Review " ≠ "Under Review".
Proof.
  destruct (to_representation_collapses_whitespace
              2 "  " "Under" [("   ", "Review")] " ") as (H1 & H2 & _).
  - reflexivity.
  - reflexivity.
  - repeat constructor.
  - reflexivity.
  - split; [exact H1|]. split; [exact H2|]. discriminate.
Defined.

(* ===================================================================== *)
(** ** Facts about the serializers *)
(* ===================================================================== *)

Section SerializerFacts.

(** The comprehension returns when every tag has its attribute. *)
Lemma tags_dict_returns instance tags acc :
  (∀ x, In x tags → tag_counted instance x) →
  ∃ d, PatchListSerializer.tags_dict instance tags acc = Return d.
Proof.
  revert acc. induction tags as [|x tags IH]; intros acc Hall; cbn.
  - by eexists.
  - destruct (Hall x) as [v Hv]; [by left|].
    unfold Patch.getattr. rewrite Hv. cbn.
    apply IH. intros y Hy. apply Hall. by right.
Qed.

(** What it returns: the count of each tag under the tag's name, and the
    accumulator elsewhere. *)
Lemma tags_dict_lookup instance tags acc d :
  List.NoDup (map Tag.name tags) →
  PatchListSerializer.tags_dict instance tags acc = Return d →
  (∀ x, In x tags → d !! Tag.name x = Patch.attrs instance !! Tag.attr_name x)
  ∧ (∀ k, ¬ In k (map Tag.name tags) → d !! k = acc !! k).
Proof.
  revert acc. induction tags as [|x tags IH]; intros acc Hnd; cbn.
  - intros [= <-]. split; [intros ? []|done].
  - apply List.NoDup_cons_iff in Hnd as [Hx Hnd].
    unfold Patch.getattr.
    destruct (Patch.attrs instance !! Tag.attr_name x) as [v|] eqn:Hv;
      [|discriminate].
    cbn. intros Hd. destruct (IH _ Hnd Hd) as [Hin Hout]. split.
    + intros y [<-|Hy]; [|by apply Hin].
      by rewrite (Hout _ Hx), lookup_insert_eq.
    + intros k Hk. rewrite Hout by tauto.
      apply lookup_insert_ne. tauto.
Qed.

(** The keys of a representation are the names of [Meta.fields]. *)
Lemma to_representation_keys field_value fields instance r :
  Serializer.to_representation field_value fields instance = Return r →
  map fst r = fields.
Proof.
  unfold Serializer.to_representation. revert r.
  induction fields as [|f fields IH]; intros r; cbn.
  - by intros [= <-].
  - destruct (field_value f instance) as [v|]; [|discriminate]. cbn.
    destruct (mapM _ fields) as [r'|]; [|discriminate]. cbn.
    intros [= <-]. cbn. f_equal. by apply IH.
Qed.

(** A representation is returned when every field renders, and then each
    field's value is in it under the field's name. *)
Lemma to_representation_returns field_value fields instance :
  (∀ f, In f fields → ∃ v, field_value f instance = Return v) →
  ∃ r, Serializer.to_representation field_value fields instance = Return r
       ∧ ∀ f v, In f fields → field_value f instance = Return v → In (f, v) r.
Proof.
  unfold Serializer.to_representation.
  induction fields as [|f fields IH]; intros Hall; cbn.
  - eexists. split; [done|]. intros ? ? [].
  - destruct (Hall f) as [v Hv]; [by left|].
    destruct IH as (r & Hr & Hin); [intros g Hg; apply Hall; by right|].
    rewrite Hv, Hr. cbn. eexists. split; [done|].
    intros g w [<-|Hg] Hw.
    + left. congruence.
    + right. by apply Hin.
Qed.

Lemma get_tags_returns instance :
  (∀ x, In x (Project.tags (Patch.project instance)) → tag_counted instance x) →
  ∃ v, PatchListSerializer.get_tags instance = Return v.
Proof.
  intros Hall. unfold PatchListSerializer.get_tags.
  destruct (Project.tags (Patch.project instance)) as [|x tags] eqn:Htags.
  - by eexists.
  - destruct (tags_dict_returns instance (x :: tags) ∅ Hall) as [d ->].
    by eexists.
Qed.

End SerializerFacts.

(* ===================================================================== *)
(** ** The claims about the serializers *)
(* ===================================================================== *)

(** C7, as amended.  The project's tags being named apart and each having
    its count attribute on the patch, [get_tags] returns [None] when the
    project has no tag, and otherwise a dictionary whose keys are the names
    of the project's tags and which maps the name of each tag to the value
    of the attribute [attr_name] of that tag on the patch. *)
Theorem get_tags_maps_names_to_counts (instance : Patch.t) :
  List.NoDup (map Tag.name (Project.tags (Patch.project instance))) →
  (∀ x, In x (Project.tags (Patch.project instance)) →
        is_Some (Patch.attrs instance !! Tag.attr_name x)) →
  ∃ v,
    PatchListSerializer.get_tags instance = Return v
    ∧ (Project.tags (Patch.project instance) = [] → v = PyNone)
    ∧ (Project.tags (Patch.project instance) ≠ [] →
       ∃ d, v = PyDict d
            ∧ (∀ k, is_Some (d !! k)
                    ↔ ∃ x, In x (Project.tags (Patch.project instance))
                           ∧ Tag.name x = k)
            ∧ (∀ x val, In x (Project.tags (Patch.project instance)) →
                        Patch.getattr instance (Tag.attr_name x) = Return val →
                        d !! Tag.name x = Some val)).
Proof.
  intros Hnd Hall. unfold PatchListSerializer.get_tags.
  destruct (Project.tags (Patch.project instance)) as [|x0 tags0] eqn:Htags.
  { exists PyNone. repeat split; done. }
  set (tags := x0 :: tags0) in *.
  destruct (tags_dict_returns instance tags ∅ Hall) as [d Hd].
  rewrite Hd. exists (PyDict d). split; [done|]. split; [done|].
  intros _. exists d. split; [done|].
  destruct (tags_dict_lookup instance tags ∅ d Hnd Hd) as [Hin Hout]. split.
  - intros k. split.
    + intros Hk. destruct (in_dec string_dec k (map Tag.name tags)) as [Hi|Hn].
      * apply in_map_iff in Hi as (x & Hx & Hxin). eauto.
      * rewrite (Hout _ Hn), lookup_empty in Hk. by destruct Hk.
    + intros (x & Hx & <-). rewrite (Hin _ Hx). by apply Hall.
  - intros x val Hx. rewrite (Hin _ Hx). unfold Patch.getattr.
    destruct (Patch.attrs instance !! Tag.attr_name x); congruence.
Qed.

Lemma get_tags_maps_names_to_counts_witness :
  PatchListSerializer.get_tags sample_patch
  = Return (PyDict (<["reviewed" := PyInt 3]> (<["tested" := PyInt 0]> ∅))).
Proof.
  destruct (get_tags_maps_names_to_counts sample_patch) as (v & Hv & _).
  - repeat (constructor; [cbn; intuition discriminate|]). constructor.
  - intros x [<-|[<-|[]]]; by eexists.
  - reflexivity.
Defined.

(** C7, as stated, fails.  With two tags of the name [reviewed], whose
    counts on the patch are 3 and 5, the dictionary holds 5 under
    [reviewed], which is not the count of the first tag; and for a patch
    that lacks the count attribute of a tag, [get_tags] returns no mapping
    but raises [AttributeError]. *)
Lemma get_tags_counterexample :
  (In (Tag.Build "reviewed" "tag_1_count")
      (Project.tags (Patch.project twice_reviewed_patch))
   ∧ Patch.getattr twice_reviewed_patch "tag_1_count" = Return (PyInt 3)
   ∧ PatchListSerializer.get_tags twice_reviewed_patch
     = Return (PyDict (<["reviewed" := PyInt 5]> ∅))
   ∧ (<["reviewed" := PyInt 5]> ∅ : gmap string pyvalue) !! "reviewed"
     ≠ Some (PyInt 3))
  ∧ (Project.tags (Patch.project uncounted_patch) ≠ []
     ∧ PatchListSerializer.get_tags uncounted_patch = Raise AttributeError).
Proof.
  split; [|split; [discriminate|reflexivity]].
  split; [cbn; tauto|]. split; [reflexivity|].
  split; [reflexivity|discriminate].
Qed.

(** C9.  With no header blob, or an empty one, [get_headers] returns
    [None]; the parser is not called and nothing is raised. *)
Theorem get_headers_none_without_blob (fw : Framework) (patch : Patch.t) :
  Patch.headers patch = None ∨ Patch.headers patch = Some "" →
  PatchDetailSerializer.get_headers fw patch = Return PyNone.
Proof.
  unfold PatchDetailSerializer.get_headers. by intros [-> | ->].
Qed.

Lemma get_headers_none_without_blob_witness :
  PatchDetailSerializer.get_headers sample_framework sample_patch = Return PyNone.
Proof.
  apply (get_headers_none_without_blob sample_framework sample_patch).
  right. reflexivity.
Defined.

(** Every field of the detail serializer renders when the request is in the
    context, the tags have their counts and the model fields render. *)
Lemma detail_field_value_returns (fw : Framework) (ctx : Context)
    (instance : Patch.t) (f : string) :
  is_Some (request ctx) →
  (∀ x, In x (Project.tags (Patch.project instance)) → tag_counted instance x) →
  (∀ g, In g (Serializer.model_fields PatchDetailSerializer.declared_fields
                PatchDetailSerializer.Meta.fields) →
        ∃ v, model_field fw g instance = Return v) →
  In f PatchDetailSerializer.Meta.fields →
  (∃ v, PatchDetailSerializer.field_value fw ctx f instance = Return v)
  ∧ (In f PatchListSerializer.Meta.fields →
     ∃ v, PatchListSerializer.field_value fw ctx f instance = Return v).
Proof.
  intros [req Hreq] Htags Hmodel Hf.
  assert (∃ v, PatchListSerializer.get_mbox ctx instance = Return v) as Hmbox.
  { unfold PatchListSerializer.get_mbox. rewrite Hreq. by eexists. }
  assert (∃ v, PatchListSerializer.get_checks fw ctx instance = Return v) as Hchecks.
  { unfold PatchListSerializer.get_checks. rewrite Hreq. by eexists. }
  assert (∃ v, PatchDetailSerializer.get_headers fw instance = Return v) as Hheaders.
  { unfold PatchDetailSerializer.get_headers.
    destruct (Patch.headers instance) as [[|c h]|]; by eexists. }
  pose proof (get_tags_returns instance Htags) as Htagsv.
  cbn in Hf.
  repeat (destruct Hf as [<-|Hf]); try destruct Hf.
  all: split; [|intros Hin].
  all: first [ exact Hmbox | exact Hchecks | exact Hheaders | exact Htagsv
             | by eexists
             | apply Hmodel; vm_compute; tauto
             | exfalso; vm_compute in Hin; intuition discriminate ].
Qed.

(** C8.  For a patch that serializes (the request is in the context, each
    tag has its count, the model fields render), the list representation
    has exactly the keys of [PatchListSerializer.Meta.fields], none of them
    [headers], [content] or [diff], and the detail representation has
    exactly the keys of [PatchDetailSerializer.Meta.fields], all three among
    them; [headers] is there with the value [None] when no header blob is
    stored. *)
Theorem list_omits_and_detail_has_blobs
    (fw : Framework) (ctx : Context) (instance : Patch.t) :
  is_Some (request ctx) →
  (∀ x, In x (Project.tags (Patch.project instance)) → tag_counted instance x) →
  (∀ g, In g (Serializer.model_fields PatchDetailSerializer.declared_fields
                PatchDetailSerializer.Meta.fields) →
        ∃ v, model_field fw g instance = Return v) →
  ∃ rl rd,
    list_representation fw ctx instance = Return rl
    ∧ detail_representation fw ctx instance = Return rd
    ∧ map fst rl = PatchListSerializer.Meta.fields
    ∧ map fst rd = PatchDetailSerializer.Meta.fields
    ∧ (∀ k, In k ["headers"; "content"; "diff"] →
            ¬ In k (map fst rl) ∧ In k (map fst rd))
    ∧ (truthy_str (Patch.headers instance) = false → In ("headers", PyNone) rd).
Proof.
  intros Hreq Htags Hmodel.
  destruct (to_representation_returns
              (PatchListSerializer.field_value fw ctx)
              PatchListSerializer.Meta.fields instance) as (rl & Hrl & _).
  { intros f Hf.
    apply (detail_field_value_returns fw ctx instance f); try done.
    unfold PatchDetailSerializer.Meta.fields. apply in_or_app. by left. }
  destruct (to_representation_returns
              (PatchDetailSerializer.field_value fw ctx)
              PatchDetailSerializer.Meta.fields instance) as (rd & Hrd & Hin).
  { intros f Hf. by apply (detail_field_value_returns fw ctx instance f). }
  exists rl, rd.
  pose proof (to_representation_keys _ _ _ _ Hrl) as Hkl.
  pose proof (to_representation_keys _ _ _ _ Hrd) as Hkd.
  repeat split; try done.
  - rewrite Hkl. destruct H as [<-|[<-|[<-|[]]]];
      vm_compute; intuition discriminate.
  - rewrite Hkd. destruct H as [<-|[<-|[<-|[]]]]; vm_compute; tauto.
  - intros Hfalse. apply Hin; [vm_compute; tauto|].
    cbn. unfold PatchDetailSerializer.get_headers. by rewrite Hfalse.
Qed.

Lemma list_omits_and_detail_has_blobs_witness :
  ∃ rl rd,
    list_representation sample_framework sample_context sample_patch = Return rl
    ∧ detail_representation sample_framework sample_context sample_patch = Return rd
    ∧ map fst rl = PatchListSerializer.Meta.fields
    ∧ map fst rd = PatchDetailSerializer.Meta.fields
    ∧ (∀ k, In k ["headers"; "content"; "diff"] →
            ¬ In k (map fst rl) ∧ In k (map fst rd))
    ∧ (truthy_str (Patch.headers sample_patch) = false → In ("headers", PyNone) rd).
Proof.
  apply (list_omits_and_detail_has_blobs
           sample_framework sample_context sample_patch).
  - by eexists.
  - intros x [<-|[<-|[]]]; by eexists.
  - intros g _. by eexists.
Defined.

(* ===================================================================== *)
(** ** Updates *)
(* ===================================================================== *)

Section UpdateFacts.

Variable fw : Framework.
Variable queryset : list State.t.
Variable partial : bool.

(** What validation returns: an entry for each writable field that the
    body names, and no other. *)
Lemma run_validation_spec writable data validated_data :
  Serializer.run_validation fw queryset partial writable data
  = Return validated_data →
  (∀ f x, In (f, x) validated_data →
          In f writable
          ∧ ∃ v, Serializer.get_value data f = Some v
                 ∧ validates fw queryset f v x)
  ∧ (∀ f v, In f writable → Serializer.get_value data f = Some v →
            ∃ x, In (f, x) validated_data)
  ∧ (List.NoDup writable → List.NoDup (map fst validated_data)).
Proof.
  revert validated_data.
  induction writable as [|g writable IH]; intros vd; cbn.
  - intros [= <-]. split; [intros ? ? []|]. split; [intros ? ? []|].
    intros _. constructor.
  - destruct (Serializer.get_value data g) as [v|] eqn:Hg.
    + destruct (if String.eqb g "state" then _ else _) as [x|] eqn:Hx;
        [|discriminate].
      cbn.
      destruct (Serializer.run_validation _ _ _ writable data) as [rest|];
        [|discriminate].
      cbn. intros [= <-].
      destruct (IH rest eq_refl) as (H1 & H2 & H3).
      assert (validates fw queryset g v x) as Hval.
      { unfold validates. destruct (String.eqb g "state").
        - destruct (Serializer.validate_state queryset v) as [st|] eqn:Hst;
            [|discriminate]. injection Hx as <-. exists st.
          split; [done|]. split; [|done].
          by destruct v as [| | | |[|c s]| | |].
        - destruct (validate_field fw g v) as [v'|]; [|discriminate].
          injection Hx as <-. by exists v'. }
      split; [|split].
      * intros f y [[= <- <-]|Hin].
        -- split; [by left|by exists v].
        -- destruct (H1 f y Hin) as [Hf Hv]. split; [by right|done].
      * intros f w [<-|Hf] Hw; [exists x; by left|].
        destruct (H2 f w Hf Hw) as [y Hy]. exists y. by right.
      * intros [Hn Hnd]%List.NoDup_cons_iff. cbn. constructor; [|by apply H3].
        intros ((f & y) & <- & Hy)%in_map_iff. by apply (H1 f y) in Hy as [? _].
    + destruct (partial || negb (Serializer.is_required fw g))%bool.
      2:{ unfold Serializer.missing. by destruct (String.eqb g "state"). }
      intros Hvd. destruct (IH vd Hvd) as (H1 & H2 & H3).
      split; [|split].
      * intros f y Hin. destruct (H1 f y Hin) as [Hf Hv].
        split; [by right|done].
      * intros f w [<-|Hf] Hw; [congruence|by apply (H2 f w)].
      * intros [_ Hnd]%List.NoDup_cons_iff. by apply H3.
Qed.

Lemma update_cons instance g x validated_data :
  Serializer.update instance ((g, x) :: validated_data)
  = Serializer.update (setattr instance g x) validated_data.
Proof. reflexivity. Qed.

(** An update leaves an attribute alone unless it stores it. *)
Lemma update_attrs_frame validated_data instance f :
  (∀ v, ¬ In (f, StoredAttr v) validated_data) →
  Patch.attrs (Serializer.update instance validated_data) !! f
  = Patch.attrs instance !! f.
Proof.
  revert instance.
  induction validated_data as [|[g x] vd IH]; intros instance Hf; [done|].
  rewrite update_cons, IH by (intros v Hv; apply (Hf v); by right).
  destruct x as [st|v]; [done|]. cbn.
  apply lookup_insert_ne. intros ->. apply (Hf v). by left.
Qed.

Lemma update_attrs_set validated_data instance f v :
  List.NoDup (map fst validated_data) →
  In (f, StoredAttr v) validated_data →
  Patch.attrs (Serializer.update instance validated_data) !! f = Some v.
Proof.
  revert instance.
  induction validated_data as [|[g x] vd IH]; intros instance Hnd; [intros []|].
  apply List.NoDup_cons_iff in Hnd as [Hg Hnd]. rewrite update_cons.
  intros [[= -> ->]|Hin].
  - rewrite update_attrs_frame; [by apply lookup_insert_eq|].
    intros w Hw. apply Hg. apply in_map_iff. by exists (f, StoredAttr w).
  - by apply IH.
Qed.

(** An update leaves the state alone unless it stores one. *)
Lemma update_state_frame validated_data instance :
  (∀ f st, ¬ In (f, StoredState st) validated_data) →
  Patch.state (Serializer.update instance validated_data) = Patch.state instance.
Proof.
  revert instance.
  induction validated_data as [|[g x] vd IH]; intros instance Hf; [done|].
  rewrite update_cons, IH by (intros f st Hst; apply (Hf f st); by right).
  destruct x as [st|v]; [|done]. exfalso. apply (Hf g st). by left.
Qed.

Lemma update_state_set validated_data instance f st :
  List.NoDup (map fst validated_data) →
  (∀ g st', In (g, StoredState st') validated_data → g = f) →
  In (f, StoredState st) validated_data →
  Patch.state (Serializer.update instance validated_data) = st.
Proof.
  revert instance.
  induction validated_data as [|[g x] vd IH]; intros instance Hnd Hkey;
    [intros []|].
  apply List.NoDup_cons_iff in Hnd as [Hg Hnd]. rewrite update_cons.
  intros [[= -> ->]|Hin].
  - rewrite update_state_frame; [done|].
    intros h st' Hst'. apply Hg. apply in_map_iff.
    exists (h, StoredState st'). split; [|done].
    cbn. apply (Hkey h st'). by right.
  - apply IH; [done| |done]. intros h st' Hst'. apply (Hkey h st'). by right.
Qed.

(** An update touches nothing but the state and the attributes. *)
Lemma update_rest validated_data instance :
  Patch.id (Serializer.update instance validated_data) = Patch.id instance
  ∧ Patch.project (Serializer.update instance validated_data)
    = Patch.project instance
  ∧ Patch.headers (Serializer.update instance validated_data)
    = Patch.headers instance
  ∧ Patch.combined_check_state (Serializer.update instance validated_data)
    = Patch.combined_check_state instance
  ∧ Patch.get_mbox_url (Serializer.update instance validated_data)
    = Patch.get_mbox_url instance.
Proof.
  revert instance.
  induction validated_data as [|[g x] vd IH]; intros instance; [done|].
  rewrite update_cons.
  destruct (IH (setattr instance g x)) as (-> & -> & -> & -> & ->).
  by destruct x.
Qed.

(** What validation stores for the writable fields of the serializers:
    a row under [state], a value under each of the other four. *)
Lemma validated_shape data validated_data f x :
  Serializer.run_validation fw queryset partial
    ("commit_ref" :: "pull_url" :: "state" :: "archived" :: ["delegate"]) data
  = Return validated_data →
  In (f, x) validated_data →
  ∃ v, Serializer.get_value data f = Some v
       ∧ ((f = "state"
           ∧ ∃ st, Serializer.validate_state queryset v = Return st
                   ∧ StateField.to_internal_value queryset v = Return st
                   ∧ x = StoredState st)
          ∨ (In f writable_attrs
             ∧ ∃ v', validate_field fw f v = Return v' ∧ x = StoredAttr v')).
Proof.
  intros Hvd Hin.
  destruct (run_validation_spec _ data validated_data Hvd) as (H1 & _ & _).
  destruct (H1 f x Hin) as (Hf & v & Hv & Hval). exists v. split; [done|].
  cbn in Hf. destruct Hf as [<-|[<-|[<-|[<-|[<-|[]]]]]]; cbn in Hval;
    first [ left; by split | right; split; [cbn; tauto | done] ].
Qed.

(** The effect of an accepted update through a serializer whose writable
    fields are [commit_ref], [pull_url], [state], [archived] and
    [delegate]. *)
Lemma perform_update_spec declared_fields fields read_only_fields
    instance data instance' :
  Serializer.writable_fields declared_fields fields read_only_fields
  = "commit_ref" :: "pull_url" :: "state" :: "archived" :: ["delegate"] →
  Serializer.perform_update fw queryset declared_fields fields read_only_fields
    partial instance data = Return instance' →
  (∀ f, ¬ In f writable_attrs →
        Patch.attrs instance' !! f = Patch.attrs instance !! f)
  ∧ (∀ f v, In f writable_attrs → Serializer.get_value data f = Some v →
            ∃ v', validate_field fw f v = Return v'
                  ∧ Patch.attrs instance' !! f = Some v')
  ∧ (∀ f, In f writable_attrs → Serializer.get_value data f = None →
          Patch.attrs instance' !! f = Patch.attrs instance !! f)
  ∧ (∀ v, Serializer.get_value data "state" = Some v →
          StateField.to_internal_value queryset v = Return (Patch.state instance'))
  ∧ (Serializer.get_value data "state" = None →
     Patch.state instance' = Patch.state instance)
  ∧ (Patch.id instance' = Patch.id instance
     ∧ Patch.project instance' = Patch.project instance
     ∧ Patch.headers instance' = Patch.headers instance
     ∧ Patch.combined_check_state instance' = Patch.combined_check_state instance
     ∧ Patch.get_mbox_url instance' = Patch.get_mbox_url instance).
Proof.
  intros Hwritable. unfold Serializer.perform_update. rewrite Hwritable.
  destruct (Serializer.run_validation _ _ _ _ data) as [vd|] eqn:Hvd;
    [|discriminate].
  cbn. intros [= <-].
  pose proof (validated_shape data vd) as Hshape.
  destruct (run_validation_spec _ data vd Hvd) as (_ & Hnamed & Hnd).
  assert (List.NoDup (map fst vd)) as Hnodup.
  { apply Hnd. repeat (constructor; [cbn; intuition discriminate|]). constructor. }
  split; [|split; [|split; [|split; [|split]]]].
  - intros f Hf. apply update_attrs_frame. intros v Hin.
    destruct (Hshape f _ Hvd Hin) as (w & _ & [[_ (st & _ & _ & [=])]|[Hw _]]).
    by apply Hf.
  - intros f v Hf Hv.
    destruct (Hnamed f v) as [x Hx]; [cbn in Hf |- *; tauto|done|].
    destruct (Hshape f x Hvd Hx) as (w & Hw & [[-> _]|[_ (v' & Hv' & ->)]]).
    + cbn in Hf. intuition discriminate.
    + assert (w = v) as -> by congruence. exists v'. split; [done|].
      by apply update_attrs_set.
  - intros f Hf Hnone. apply update_attrs_frame. intros v Hin.
    destruct (Hshape f _ Hvd Hin) as (w & Hw & _). congruence.
  - intros v Hv. destruct (Hnamed "state" v) as [x Hx]; [cbn; tauto|done|].
    destruct (Hshape "state" x Hvd Hx)
      as (w & Hw & [[_ (st & _ & Hst & ->)]|[Hattr _]]).
    + assert (w = v) as -> by congruence. rewrite Hst. f_equal. symmetry.
      apply (update_state_set vd instance "state" st); [done| |done].
      intros g st' Hg.
      destruct (Hshape g _ Hvd Hg) as (? & _ & [[-> _]|[_ (? & _ & [=])]]).
      done.
    + cbn in Hattr. intuition discriminate.
  - intros Hnone. apply update_state_frame. intros f st Hin.
    destruct (Hshape f _ Hvd Hin) as (w & Hw & [[-> _]|[_ (? & _ & [=])]]).
    congruence.
  - apply update_rest.
Qed.

(** The tags of a patch depend on its project and on the counts only. *)
Lemma tags_dict_ext instance instance' tags acc :
  (∀ x, In x tags →
        Patch.attrs instance' !! Tag.attr_name x
        = Patch.attrs instance !! Tag.attr_name x) →
  PatchListSerializer.tags_dict instance' tags acc
  = PatchListSerializer.tags_dict instance tags acc.
Proof.
  revert acc. induction tags as [|x tags IH]; intros acc Hext; [done|].
  cbn. unfold Patch.getattr. rewrite (Hext x) by (by left).
  destruct (Patch.attrs instance !! Tag.attr_name x); [|done].
  cbn. apply IH. intros y Hy. apply Hext. by right.
Qed.

(** The fields that the serializers compute are not changed by an update
    that keeps the attributes they read. *)
Lemma computed_fields_ext instance instance' :
  Patch.id instance' = Patch.id instance →
  Patch.project instance' = Patch.project instance →
  Patch.combined_check_state instance' = Patch.combined_check_state instance →
  Patch.get_mbox_url instance' = Patch.get_mbox_url instance →
  (∀ ctx, PatchListSerializer.get_mbox ctx instance'
          = PatchListSerializer.get_mbox ctx instance
          ∧ PatchListSerializer.get_checks fw ctx instance'
            = PatchListSerializer.get_checks fw ctx instance)
  ∧ PatchListSerializer.get_check instance'
    = PatchListSerializer.get_check instance
  ∧ ((∀ x, In x (Project.tags (Patch.project instance)) →
           Patch.attrs instance' !! Tag.attr_name x
           = Patch.attrs instance !! Tag.attr_name x) →
     PatchListSerializer.get_tags instance'
     = PatchListSerializer.get_tags instance).
Proof.
  intros Hid Hproject Hcheck Hmbox. split; [|split].
  - intros ctx. unfold PatchListSerializer.get_mbox, PatchListSerializer.get_checks.
    by rewrite Hid, Hmbox.
  - unfold PatchListSerializer.get_check. by rewrite Hcheck.
  - intros Hext. unfold PatchListSerializer.get_tags. rewrite Hproject.
    destruct (Project.tags (Patch.project instance)) as [|x tags]; [done|].
    by rewrite (tags_dict_ext instance instance').
Qed.

End UpdateFacts.

Lemma list_writable_fields :
  Serializer.writable_fields PatchListSerializer.declared_fields
    PatchListSerializer.Meta.fields PatchListSerializer.Meta.read_only_fields
  = "commit_ref" :: "pull_url" :: "state" :: "archived" :: ["delegate"].
Proof. reflexivity. Qed.

Lemma detail_writable_fields :
  Serializer.writable_fields PatchDetailSerializer.declared_fields
    PatchDetailSerializer.Meta.fields PatchDetailSerializer.Meta.read_only_fields
  = "commit_ref" :: "pull_url" :: "state" :: "archived" :: ["delegate"].
Proof. reflexivity. Qed.

(** C4, as amended.  The fields that an update through
    [PatchListSerializer] can set are exactly [commit_ref], [pull_url],
    [state], [archived] and [delegate]: [name] is not one of them.  After an
    update that is accepted, partial or full, each of these five that the
    body names holds its validated value, and everything else is as before:
    every other attribute of the patch, [name] included, its identifier,
    project, headers, combined check state and mbox URL, each of the five
    that the body does not name, and with them the computed fields [mbox],
    [check], [checks] and (no tag count being stored under the name of a
    writable attribute) [tags]. *)
Theorem update_sets_writable_fields_only
    (fw : Framework) (queryset : list State.t) (partial : bool)
    (instance : Patch.t) (data : list (string * pyvalue)) (instance' : Patch.t) :
  list_update fw queryset partial instance data = Return instance' →
  Serializer.writable_fields PatchListSerializer.declared_fields
    PatchListSerializer.Meta.fields PatchListSerializer.Meta.read_only_fields
  = "commit_ref" :: "pull_url" :: "state" :: "archived" :: ["delegate"]
  ∧ Patch.attrs instance' !! "name" = Patch.attrs instance !! "name"
  ∧ (∀ f, ¬ In f writable_attrs →
          Patch.attrs instance' !! f = Patch.attrs instance !! f)
  ∧ (∀ f v, In f writable_attrs → Serializer.get_value data f = Some v →
            ∃ v', validate_field fw f v = Return v'
                  ∧ Patch.attrs instance' !! f = Some v')
  ∧ (∀ f, In f writable_attrs → Serializer.get_value data f = None →
          Patch.attrs instance' !! f = Patch.attrs instance !! f)
  ∧ (∀ v, Serializer.get_value data "state" = Some v →
          StateField.to_internal_value queryset v = Return (Patch.state instance'))
  ∧ (Serializer.get_value data "state" = None →
     Patch.state instance' = Patch.state instance)
  ∧ (Patch.id instance' = Patch.id instance
     ∧ Patch.project instance' = Patch.project instance
     ∧ Patch.headers instance' = Patch.headers instance
     ∧ Patch.combined_check_state instance' = Patch.combined_check_state instance
     ∧ Patch.get_mbox_url instance' = Patch.get_mbox_url instance)
  ∧ (∀ ctx, PatchListSerializer.get_mbox ctx instance'
            = PatchListSerializer.get_mbox ctx instance
            ∧ PatchListSerializer.get_checks fw ctx instance'
              = PatchListSerializer.get_checks fw ctx instance)
  ∧ PatchListSerializer.get_check instance'
    = PatchListSerializer.get_check instance
  ∧ ((∀ x, In x (Project.tags (Patch.project instance)) →
           ¬ In (Tag.attr_name x) writable_attrs) →
     PatchListSerializer.get_tags instance'
     = PatchListSerializer.get_tags instance).
Proof.
  intros Hupdate. split; [apply list_writable_fields|].
  pose proof (perform_update_spec fw queryset partial _ _ _ instance data
                instance' list_writable_fields Hupdate)
    as (Hframe & Hset & Hkeep & Hstate & Hnostate & Hrest).
  split; [apply Hframe; cbn; intuition discriminate|].
  do 6 (split; [done|]).
  destruct Hrest as (Hid & Hproject & _ & Hcheck & Hmbox).
  destruct (computed_fields_ext fw instance instance' Hid Hproject Hcheck Hmbox)
    as (Hurls & Hcheckv & Htags).
  split; [done|]. split; [done|].
  intros Hnames. apply Htags. intros x Hx. by apply Hframe, Hnames.
Qed.

Lemma update_sets_writable_fields_only_witness :
  Patch.attrs
    (setattr (setattr sample_patch "commit_ref" (StoredAttr (PyStr "abc123")))
       "state" (StoredState (State.Build 3 "Accepted"))) !! "name"
  = Patch.attrs sample_patch !! "name"
  ∧ StateField.to_internal_value sample_states (PyStr "accepted")
    = Return (State.Build 3 "Accepted").
Proof.
  destruct (update_sets_writable_fields_only sample_framework sample_states true
              sample_patch
              [("commit_ref", PyStr "abc123"); ("state", PyStr "accepted");
               ("name", PyStr "renamed")]
              (setattr
                 (setattr sample_patch "commit_ref" (StoredAttr (PyStr "abc123")))
                 "state" (StoredState (State.Build 3 "Accepted"))))
    as (_ & Hname & _ & _ & _ & Hstate & _).
  - reflexivity.
  - split; [exact Hname|]. apply (Hstate (PyStr "accepted")). reflexivity.
Defined.

(** C4, as stated, fails: [name] is listed in [Meta.read_only_fields], so it
    is not writable, and an update that names it leaves the patch as it
    was, while one that names [commit_ref] sets it. *)
Lemma update_name_counterexample :
  In "name" PatchListSerializer.Meta.read_only_fields
  ∧ Serializer.is_read_only PatchListSerializer.declared_fields
      PatchListSerializer.Meta.read_only_fields "name" = true
  ∧ ¬ In "name"
        (Serializer.writable_fields PatchListSerializer.declared_fields
           PatchListSerializer.Meta.fields
           PatchListSerializer.Meta.read_only_fields)
  ∧ Patch.attrs sample_patch !! "name" = Some (PyStr "[PATCH] fix")
  ∧ list_update sample_framework sample_states true sample_patch
      [("name", PyStr "renamed")]
    = Return sample_patch
  ∧ list_update sample_framework sample_states true sample_patch
      [("commit_ref", PyStr "abc123")]
    = Return (setattr sample_patch "commit_ref" (StoredAttr (PyStr "abc123"))).
Proof.
  split; [cbn; tauto|]. split; [reflexivity|].
  split; [cbn; intuition discriminate|]. split; [reflexivity|].
  split; reflexivity.
Qed.

(** The same effect through [PatchDetailSerializer], the serializer of the
    endpoint that updates. *)
Lemma detail_update_sets_writable_fields_only
    (fw : Framework) (queryset : list State.t) (partial : bool)
    (instance : Patch.t) (data : list (string * pyvalue)) (instance' : Patch.t) :
  detail_update fw queryset partial instance data = Return instance' →
  (∀ f, ¬ In f writable_attrs →
        Patch.attrs instance' !! f = Patch.attrs instance !! f)
  ∧ (∀ f v, In f writable_attrs → Serializer.get_value data f = Some v →
            ∃ v', validate_field fw f v = Return v'
                  ∧ Patch.attrs instance' !! f = Some v')
  ∧ (∀ f, In f writable_attrs → Serializer.get_value data f = None →
          Patch.attrs instance' !! f = Patch.attrs instance !! f)
  ∧ (∀ v, Serializer.get_value data "state" = Some v →
          StateField.to_internal_value queryset v = Return (Patch.state instance'))
  ∧ (Serializer.get_value data "state" = None →
     Patch.state instance' = Patch.state instance)
  ∧ (Patch.id instance' = Patch.id instance
     ∧ Patch.project instance' = Patch.project instance
     ∧ Patch.headers instance' = Patch.headers instance
     ∧ Patch.combined_check_state instance' = Patch.combined_check_state instance
     ∧ Patch.get_mbox_url instance' = Patch.get_mbox_url instance).
Proof.
  apply (perform_update_spec fw queryset partial _ _ _ instance data instance').
  apply detail_writable_fields.
Qed.

(** A full update that does not name [state] is refused. *)
Example full_update_requires_state :
  list_update sample_framework sample_states false sample_patch
    [("commit_ref", PyStr "abc123")]
  = Raise (ValidationError "This field is required." "required").
Proof. reflexivity. Qed.

(* ===================================================================== *)
(** ** Further properties of [format_state_name] and [StateField] *)
(* ===================================================================== *)

Section MoreStrFacts.

Lemma forallb_app (p : ascii → bool) a b :
  Str.forallb p (a +:+ b) = (Str.forallb p a && Str.forallb p b)%bool.
Proof.
  induction a as [|c a IH]; [done|].
  rewrite sapp_cons. cbn. by rewrite IH, andb_assoc.
Qed.

Lemma replace_char_length old new s :
  len (Str.replace_char old new s) = len s.
Proof. induction s as [|c s IH]; [done|]. cbn. by f_equal. Qed.

Lemma replace_char_removes old new s :
  old ≠ new →
  Str.forallb (fun c => negb (Ascii.eqb c old)) (Str.replace_char old new s) = true.
Proof.
  intros Hne. induction s as [|c s IH]; [done|].
  cbn. rewrite IH, andb_true_r. apply negb_true_iff.
  destruct (Ascii.eqb_spec c old) as [->|Hc]; apply Ascii.eqb_neq; congruence.
Qed.


Lemma lower_fixed s : Str.forallb is_lowered s = true → Str.lower s = s.
Proof.
  induction s as [|c s IH]; [done|].
  cbn. intros [Hc Hs]%andb_true_iff. rewrite IH by done.
  by apply Ascii.eqb_eq in Hc as ->.
Qed.

Lemma lower_is_lowered s : Str.forallb is_lowered (Str.lower s) = true.
Proof.
  induction s as [|c s IH]; [done|].
  cbn. rewrite IH, andb_true_r. unfold is_lowered.
  rewrite lower_char_idem. apply Ascii.eqb_refl.
Qed.

(** The words that [split] cuts out of a string are made of its characters
    that are not whitespace. *)
Lemma split_go_forallb (q : ascii → bool) s cur :
  Str.forallb q cur = true →
  Str.forallb (fun c => Str.is_space c || q c) s = true →
  Forall (fun w => Str.forallb q w = true) (Str.split_go cur s).
Proof.
  revert cur. induction s as [|c s IH]; intros cur Hcur; cbn.
  - intros _. destruct cur; by repeat constructor.
  - intros [Hc Hs]%andb_true_iff. destruct (Str.is_space c).
    + apply Forall_app. split; [destruct cur; by repeat constructor|].
      by apply IH.
    + apply IH; [|done]. rewrite forallb_app, Hcur. cbn in *.
      by rewrite Hc.
Qed.

Lemma join_forallb (q : ascii → bool) sep parts :
  Str.forallb q sep = true →
  Forall (fun w => Str.forallb q w = true) parts →
  Str.forallb q (Str.join sep parts) = true.
Proof.
  intros Hsep. induction 1 as [|w parts Hw _ IH]; [done|].
  destruct parts as [|w' parts]; [done|].
  rewrite join_cons by done. by rewrite !forallb_app, Hw, Hsep, IH.
Qed.

Lemma forallb_true (q : ascii → bool) s :
  (∀ c, q c = true) → Str.forallb q s = true.
Proof.
  intros Hq. induction s as [|c s IH]; [done|]. cbn. by rewrite Hq, IH.
Qed.

Lemma glue_not_empty w rest : w ≠ "" → glue w rest ≠ "".
Proof. destruct w as [|c w]; [done|]. intros _. by rewrite glue_cons. Qed.

End MoreStrFacts.

Section MoreStateFieldFacts.


(** The lookup sees its argument only up to letter case. *)
Lemma get_name_iexact_lower_ext queryset data data' :
  Str.lower data = Str.lower data' →
  get_name_iexact queryset data = get_name_iexact queryset data'.
Proof.
  intros Heq. unfold get_name_iexact, iexact. by rewrite Heq.
Qed.

Lemma filter_two {A} (p : A → bool) l x y :
  In x l → In y l → x ≠ y → p x = true → p y = true →
  ∃ a b r, List.filter p l = a :: b :: r.
Proof.
  intros Hx Hy Hne Hpx Hpy.
  assert (In x (List.filter p l)) as Hfx by (by apply filter_In).
  assert (In y (List.filter p l)) as Hfy by (by apply filter_In).
  destruct (List.filter p l) as [|a [|b r]]; [done| |by eauto].
  destruct Hfx as [<-|[]]. destruct Hfy as [<-|[]]. done.
Qed.


End MoreStateFieldFacts.

(** X1.  On a string, [format_state_name] returns the string with every
    hyphen replaced by a space: the result has the same length and no
    hyphen, and formatting it again changes nothing. *)
Theorem format_state_name_replaces_hyphens (s : string) :
  ∃ r, format_state_name (PyStr s) = Return r
       ∧ r = Str.replace_char "-" " " s
       ∧ len r = len s
       ∧ hyphen_free r = true
       ∧ format_state_name (PyStr r) = Return r.
Proof.
  exists (Str.replace_char "-" " " s).
  split; [apply format_state_name_str|]. split; [done|].
  split; [apply replace_char_length|].
  assert (hyphen_free (Str.replace_char "-" " " s) = true) as Hfree
    by (by apply replace_char_removes).
  split; [done|].
  rewrite format_state_name_str. f_equal. by apply replace_char_id.
Qed.

Section AsciiFacts.

Lemma lower_char_ascii c :
  is_ascii_char c = true → Str.lower_char c = ascii_lower_char c.
Proof. by destruct c as [[] [] [] [] [] [] [] []]. Qed.

Lemma ascii_lower_char_ascii c :
  is_ascii_char c = true → is_ascii_char (ascii_lower_char c) = true.
Proof. by destruct c as [[] [] [] [] [] [] [] []]. Qed.

Lemma lower_char_not_ascii c :
  is_ascii_char c = false →
  is_ascii_char (Str.lower_char c) = false ∧ ascii_lower_char c = c.
Proof. by destruct c as [[] [] [] [] [] [] [] []]. Qed.

Lemma replace_hyphen_ascii s :
  is_ascii_text (Str.replace_char "-" " " s) = is_ascii_text s.
Proof.
  unfold is_ascii_text.
  induction s as [|c s IH]; [done|]. cbn. rewrite IH. f_equal.
  by destruct (Ascii.eqb_spec c "-") as [->|].
Qed.

(** Against an ASCII character, folding all letters and folding the ASCII
    letters only compare alike. *)
Lemma eqb_lower_char_ascii c d :
  is_ascii_char d = true →
  Ascii.eqb (Str.lower_char c) (Str.lower_char d)
  = Ascii.eqb (ascii_lower_char c) (ascii_lower_char d).
Proof.
  intros Hd. rewrite (lower_char_ascii d Hd).
  pose proof (ascii_lower_char_ascii d Hd) as Hd'.
  destruct (is_ascii_char c) eqn:Hc.
  - by rewrite (lower_char_ascii c Hc).
  - destruct (lower_char_not_ascii c Hc) as [Hl ->].
    transitivity false; [|symmetry]; apply Ascii.eqb_neq; congruence.
Qed.

(** On ASCII text the lookup is the same whether the database folds every
    letter or the ASCII letters only. *)
Lemma iexact_ascii_agrees name data :
  is_ascii_text data = true → iexact name data = iexact_ascii name data.
Proof.
  unfold iexact, iexact_ascii. revert data.
  induction name as [|c name IH]; intros [|d data]; try done.
  cbn. intros [Hd Hdata]%andb_true_iff.
  by rewrite (eqb_lower_char_ascii c d Hd), (IH data Hdata).
Qed.

Lemma get_name_iexact_ascii_agrees queryset data :
  is_ascii_text data = true →
  List.filter (fun x => iexact (State.name x) data) queryset
  = List.filter (fun x => iexact_ascii (State.name x) data) queryset.
Proof.
  intros Hdata. induction queryset as [|x queryset IH]; [done|].
  cbn. by rewrite IH, (iexact_ascii_agrees _ _ Hdata).
Qed.

Lemma to_internal_value_via_lookup objects data :
  StateField.to_internal_value objects data
  = to_internal_value_via
      (get_name_iexact (StateField.get_queryset objects)) objects data.
Proof. reflexivity. Qed.

End AsciiFacts.

(** X2.  The handlers of [to_internal_value], whatever the lookup does.
    [State.DoesNotExist], [TypeError] and [ValueError] never leave it: a
    lookup that finds no row ends in the [invalid_choice] error, and one
    that raises [TypeError] or [ValueError] on the formatted string ends in
    the [incorrect_type] error, whose message then says that a [str] was
    received.  Any other exception of the lookup, such as
    [MultipleObjectsReturned], leaves as it is.  A byte string ends in
    [incorrect_type], and any other value that is not a string in
    [AttributeError], without any lookup.  [StateField.to_internal_value]
    is this function with the lookup of the table. *)
Theorem to_internal_value_handlers
    (get : string → result State.t) (objects : list State.t) (data : pyvalue) :
  StateField.to_internal_value objects data
  = to_internal_value_via
      (get_name_iexact (StateField.get_queryset objects)) objects data
  ∧ to_internal_value_via get objects data ≠ Raise DoesNotExist
  ∧ to_internal_value_via get objects data ≠ Raise TypeError
  ∧ to_internal_value_via get objects data ≠ Raise ValueError
  ∧ (∀ s, data = PyStr s →
          match get (Str.replace_char "-" " " s) with
          | Return st => to_internal_value_via get objects data = Return st
          | Raise DoesNotExist =>
              ∃ detail,
                to_internal_value_via get objects data
                = Raise (ValidationError detail "invalid_choice")
          | Raise TypeError | Raise ValueError =>
              to_internal_value_via get objects data
              = Raise (ValidationError
                         "Incorrect type. Expected string value, received str."
                         "incorrect_type")
          | Raise e => to_internal_value_via get objects data = Raise e
          end)
  ∧ (∀ b, data = PyBytes b →
          to_internal_value_via get objects data
          = Raise (ValidationError
                     "Incorrect type. Expected string value, received bytes."
                     "incorrect_type"))
  ∧ ((∀ s, data ≠ PyStr s) → (∀ b, data ≠ PyBytes b) →
     to_internal_value_via get objects data = Raise AttributeError).
Proof.
  split; [apply to_internal_value_via_lookup|].
  assert (∀ s,
    match get (Str.replace_char "-" " " s) with
    | Return st => to_internal_value_via get objects (PyStr s) = Return st
    | Raise DoesNotExist =>
        ∃ detail,
          to_internal_value_via get objects (PyStr s)
          = Raise (ValidationError detail "invalid_choice")
    | Raise TypeError | Raise ValueError =>
        to_internal_value_via get objects (PyStr s)
        = Raise (ValidationError
                   "Incorrect type. Expected string value, received str."
                   "incorrect_type")
    | Raise e => to_internal_value_via get objects (PyStr s) = Raise e
    end) as Hstr.
  { intros s. unfold to_internal_value_via. rewrite format_state_name_str.
    destruct (get _) as [st|[]]; try done.
    rewrite choices_eq. cbn [mbind result_bind].
    rewrite fail_invalid_choice. by eexists. }
  destruct data as [| | | |s|b| |].
  5:{ assert (to_internal_value_via get objects (PyStr s) ≠ Raise DoesNotExist
              ∧ to_internal_value_via get objects (PyStr s) ≠ Raise TypeError
              ∧ to_internal_value_via get objects (PyStr s) ≠ Raise ValueError)
        as (Hd & Ht & Hv).
      { pose proof (Hstr s) as H.
        destruct (get (Str.replace_char "-" " " s)) as [st|[]];
          lazymatch type of H with
          | ex _ => destruct H as [detail H]
          | _ => idtac
          end; rewrite H; repeat split; discriminate. }
      do 3 (split; [done|]).
      split; [intros s' [= <-]; apply Hstr|].
      split; [intros b' [=]|]. intros Hn. by destruct (Hn s). }
  5:{ cbn. do 3 (split; [discriminate|]).
      split; [intros s [=]|]. split; [done|].
      intros _ Hn. by destruct (Hn b). }
  all: cbn; do 3 (split; [discriminate|]);
    (split; [intros s [=]|]); (split; [intros b' [=]|]); done.
Qed.



(** X4.  [to_internal_value] does not tell hyphens from spaces nor capitals
    from small letters: two strings of ASCII text that are equal once
    their hyphens are replaced by spaces and they are lowercased lead to
    the same row, or both to none; a database that folds ASCII letters
    only matches the same rows for both as well. *)
Theorem to_internal_value_insensitive
    (queryset : list State.t) (s s' : string) (st : State.t) :
  is_ascii_text s = true →
  is_ascii_text s' = true →
  Str.lower (Str.replace_char "-" " " s)
  = Str.lower (Str.replace_char "-" " " s') →
  (StateField.to_internal_value queryset (PyStr s) = Return st
   ↔ StateField.to_internal_value queryset (PyStr s') = Return st)
  ∧ List.filter
      (fun x => iexact_ascii (State.name x) (Str.replace_char "-" " " s))
      queryset
    = List.filter
        (fun x => iexact_ascii (State.name x) (Str.replace_char "-" " " s'))
        queryset.
Proof.
  intros Hs Hs' Heq. split.
  - unfold StateField.to_internal_value, StateField.get_queryset.
    rewrite !format_state_name_str.
    rewrite (get_name_iexact_lower_ext queryset _ _ Heq).
    destruct (get_name_iexact queryset _) as [st'|e] eqn:Hget; [done|].
    apply get_name_iexact_raises in Hget as [-> | ->]; [|done].
    rewrite choices_eq. cbn [mbind result_bind].
    by rewrite !fail_invalid_choice.
  - rewrite <- !get_name_iexact_ascii_agrees by (by rewrite replace_hyphen_ascii).
    unfold iexact. by rewrite Heq.
Qed.

Lemma to_internal_value_insensitive_witness :
  StateField.to_internal_value sample_states (PyStr "under-review")
  = Return (State.Build 2 "Under Review")
  ↔ StateField.to_internal_value sample_states (PyStr "UNDER Review")
    = Return (State.Build 2 "Under Review").
Proof.
  apply (to_internal_value_insensitive sample_states
           "under-review" "UNDER Review" (State.Build 2 "Under Review")).
  - reflexivity.
  - reflexivity.
  - reflexivity.
Defined.

(** X5.  When two different rows of the table both have the name that an
    input of ASCII text stands for, up to the case of its letters,
    [to_internal_value] raises [MultipleObjectsReturned]: the ambiguity is
    not reported as a validation error.  A database that folds ASCII
    letters only matches both rows too. *)
Theorem to_internal_value_ambiguous
    (queryset : list State.t) (s : string) (st1 st2 : State.t) :
  is_ascii_text s = true →
  In st1 queryset → In st2 queryset → st1 ≠ st2 →
  Str.lower (State.name st1) = Str.lower (Str.replace_char "-" " " s) →
  Str.lower (State.name st2) = Str.lower (Str.replace_char "-" " " s) →
  StateField.to_internal_value queryset (PyStr s) = Raise MultipleObjectsReturned
  ∧ iexact_ascii (State.name st1) (Str.replace_char "-" " " s) = true
  ∧ iexact_ascii (State.name st2) (Str.replace_char "-" " " s) = true.
Proof.
  intros Hascii H1 H2 Hne Hn1 Hn2.
  assert (is_ascii_text (Str.replace_char "-" " " s) = true) as Hdata
    by (by rewrite replace_hyphen_ascii).
  assert (iexact (State.name st1) (Str.replace_char "-" " " s) = true) as Hm1
    by (by apply String.eqb_eq).
  assert (iexact (State.name st2) (Str.replace_char "-" " " s) = true) as Hm2
    by (by apply String.eqb_eq).
  split; [|by rewrite <- !iexact_ascii_agrees].
  unfold StateField.to_internal_value, StateField.get_queryset.
  rewrite format_state_name_str. unfold get_name_iexact.
  by destruct (filter_two
                 (fun x => iexact (State.name x) (Str.replace_char "-" " " s))
                 queryset st1 st2) as (a & b & r & ->).
Qed.

Lemma to_internal_value_ambiguous_witness :
  StateField.to_internal_value
    [State.Build 1 "Under Review"; State.Build 2 "New"; State.Build 3 "under review"]
    (PyStr "under-review")
  = Raise MultipleObjectsReturned.
Proof.
  apply (to_internal_value_ambiguous _ "under-review"
           (State.Build 1 "Under Review") (State.Build 3 "under review")).
  - reflexivity.
  - cbn. tauto.
  - cbn. tauto.
  - discriminate.
  - reflexivity.
  - reflexivity.
Defined.



Section MoreSlugFacts.

Lemma replace_char_app old new a b :
  Str.replace_char old new (a +:+ b)
  = Str.replace_char old new a +:+ Str.replace_char old new b.
Proof.
  induction a as [|c a IH]; [done|]. rewrite sapp_cons. cbn.
  by rewrite IH, sapp_cons.
Qed.

(** Replacing hyphens by spaces in words glued by hyphens, the words having
    none, gives the words glued by spaces. *)
Lemma replace_glue_hyphens (rest : list (string * string)) w :
  hyphen_free w = true →
  Forall (fun p => hyphen_free (snd p) = true) rest →
  Str.replace_char "-" " " (glue w (map (fun p => ("-", snd p)) rest))
  = glue w (map (fun p => (" ", snd p)) rest).
Proof.
  intros Hw Hrest. revert w Hw.
  induction Hrest as [|[sep w'] rest Hw' _ IH]; intros w Hw.
  - by apply replace_char_id.
  - cbn [map glue snd]. rewrite !replace_char_app, IH by done.
    by rewrite (replace_char_id "-" " " w).
Qed.

Lemma hyphen_free_lower s : hyphen_free (Str.lower s) = hyphen_free s.
Proof. apply no_hyphen_lower. Qed.

End MoreSlugFacts.

(** X7.  The slug of any name has no whitespace and no capital letter:
    [str.lower] leaves it as it is. *)
Theorem to_representation_shape (obj : State.t) :
  Str.forallb not_space (StateField.to_representation obj) = true
  ∧ Str.lower (StateField.to_representation obj) = StateField.to_representation obj.
Proof.
  unfold StateField.to_representation, Str.split. split.
  - apply join_forallb; [done|].
    apply split_go_forallb; [done|].
    apply forallb_true. intros c. unfold not_space. by destruct (Str.is_space c).
  - apply lower_fixed. apply join_forallb; [done|].
    apply split_go_forallb; [done|].
    generalize (lower_is_lowered (State.name obj)).
    apply forallb_impl. intros c ->. apply orb_true_r.
Qed.

(** X8.  The slug is empty exactly when the name has no word, that is when
    it is empty or made of whitespace only. *)
Theorem to_representation_empty_iff (obj : State.t) :
  StateField.to_representation obj = "" ↔ is_spaces (State.name obj) = true.
Proof.
  destruct obj as [pk name]. cbn [State.name]. split.
  - intros Hslug.
    destruct (name_shape name)
      as [Hs|(lead & w & rest & trail & -> & Hlead & Hw & Hrest & Htrail)];
      [done|].
    rewrite to_representation_glue in Hslug by done.
    apply glue_not_empty in Hslug; [done|].
    rewrite <- is_word_lower in Hw. by destruct (Str.lower w).
  - apply to_representation_spaces.
Qed.

(** X9.  Reading a slug back normalises the name.  For a name made of
    words without hyphens, glued and surrounded by any whitespace,
    [format_state_name] of its slug is the lowercased words joined by
    single spaces; this is the string that [to_internal_value] then looks
    up. *)
Theorem format_state_name_of_slug
    (pk : Z) (lead w : string) (rest : list (string * string)) (trail : string) :
  is_spaces lead = true →
  is_word w = true →
  Forall piece_ok rest →
  is_spaces trail = true →
  hyphen_free w = true →
  Forall (fun p => hyphen_free (snd p) = true) rest →
  format_state_name
    (PyStr (StateField.to_representation
              (State.Build pk (lead +:+ glue w rest +:+ trail))))
  = Return (glue (Str.lower w) (map (fun p => (" ", Str.lower (snd p))) rest)).
Proof.
  intros Hlead Hw Hrest Htrail Hfw Hfrest.
  rewrite to_representation_glue, format_state_name_str by done. f_equal.
  pose proof (replace_glue_hyphens
                (map (fun p => (fst p, Str.lower (snd p))) rest) (Str.lower w))
    as Hrep.
  rewrite !map_map in Hrep. cbn [snd] in Hrep. apply Hrep.
  - by rewrite hyphen_free_lower.
  - apply Forall_map. eapply Forall_impl; [exact Hfrest|].
    intros p Hp. cbn. by rewrite hyphen_free_lower.
Qed.

Lemma format_state_name_of_slug_witness :
  format_state_name
    (PyStr (StateField.to_representation (State.Build 2 " Under   Review  ")))
  = Return "under review".
Proof.
  apply (format_state_name_of_slug 2 " " "Under" [("   ", "Review")] "  ");
    try reflexivity; repeat constructor.
Defined.



(* ===================================================================== *)
(** ** Further properties of the serializers *)
(* ===================================================================== *)

Section MoreSerializerFacts.

(** The comprehension fails only with [AttributeError], at a tag whose
    attribute the patch lacks. *)
Lemma tags_dict_outcome instance tags acc :
  match PatchListSerializer.tags_dict instance tags acc with
  | Return _ => ∀ x, In x tags → tag_counted instance x
  | Raise e =>
      e = AttributeError
      ∧ ∃ x, In x tags ∧ Patch.attrs instance !! Tag.attr_name x = None
  end.
Proof.
  revert acc. induction tags as [|x tags IH]; intros acc; cbn.
  - intros ? [].
  - unfold Patch.getattr.
    destruct (Patch.attrs instance !! Tag.attr_name x) as [v|] eqn:Hv; cbn.
    + specialize (IH (<[Tag.name x := v]> acc)).
      destruct (PatchListSerializer.tags_dict instance tags _) as [d|e].
      * intros y [<-|Hy]; [by exists v|by apply IH].
      * destruct IH as (-> & y & Hy & Hnone). split; [done|].
        exists y. split; [by right|done].
    + split; [done|]. exists x. split; [by left|done].
Qed.

(** A key that no tag has is left as the accumulator has it. *)
Lemma tags_dict_other instance tags acc d k :
  PatchListSerializer.tags_dict instance tags acc = Return d →
  ¬ In k (map Tag.name tags) →
  d !! k = acc !! k.
Proof.
  revert acc. induction tags as [|x tags IH]; intros acc; cbn.
  - by intros [= <-].
  - unfold Patch.getattr.
    destruct (Patch.attrs instance !! Tag.attr_name x) as [v|]; [|done].
    cbn. intros Hd Hk. rewrite (IH _ Hd) by tauto.
    apply lookup_insert_ne. tauto.
Qed.

(** The last tag of a name decides what the dictionary holds under it. *)
Lemma tags_dict_last instance before x after acc d :
  PatchListSerializer.tags_dict instance (before ++ x :: after) acc = Return d →
  ¬ In (Tag.name x) (map Tag.name after) →
  d !! Tag.name x = Patch.attrs instance !! Tag.attr_name x.
Proof.
  revert acc. induction before as [|y before IH]; intros acc; cbn.
  - unfold Patch.getattr.
    destruct (Patch.attrs instance !! Tag.attr_name x) as [v|]; [|done].
    cbn. intros Hd Hafter.
    by rewrite (tags_dict_other _ _ _ _ _ Hd Hafter), lookup_insert_eq.
  - unfold Patch.getattr.
    destruct (Patch.attrs instance !! Tag.attr_name y) as [v|]; [|done].
    cbn. apply IH.
Qed.

Lemma to_representation_app field_value l1 l2 instance :
  Serializer.to_representation field_value (l1 ++ l2) instance
  = (r1 ← Serializer.to_representation field_value l1 instance;
     r2 ← Serializer.to_representation field_value l2 instance;
     Return (r1 ++ r2)).
Proof.
  unfold Serializer.to_representation.
  induction l1 as [|f l1 IH]; cbn.
  - by destruct (mapM _ l2).
  - destruct (field_value f instance) as [v|]; [|done]. cbn.
    rewrite IH. destruct (mapM _ l1) as [r1|]; [|done]. cbn.
    by destruct (mapM _ l2).
Qed.

Lemma to_representation_ext field_value field_value' fields instance :
  (∀ f, In f fields → field_value f instance = field_value' f instance) →
  Serializer.to_representation field_value fields instance
  = Serializer.to_representation field_value' fields instance.
Proof.
  unfold Serializer.to_representation.
  induction fields as [|f fields IH]; intros Hext; [done|].
  cbn. rewrite (Hext f) by (by left).
  rewrite IH; [done|]. intros g Hg. apply Hext. by right.
Qed.

(** A representation is not returned when one of its fields raises. *)
Lemma to_representation_raises field_value fields instance f e :
  In f fields → field_value f instance = Raise e →
  ∃ e', Serializer.to_representation field_value fields instance = Raise e'.
Proof.
  unfold Serializer.to_representation.
  induction fields as [|g fields IH]; [intros []|].
  intros [->|Hf] He; cbn.
  - rewrite He. by eexists.
  - destruct (field_value g instance) as [v|e0]; [|by eexists]. cbn.
    destruct (IH Hf He) as [e' ->]. by eexists.
Qed.

End MoreSerializerFacts.

(** X11.  [get_tags] returns exactly when every tag of the project has its
    count attribute on the patch; otherwise it raises [AttributeError], the
    patch lacking the attribute of some tag, and nothing else. *)
Theorem get_tags_outcomes (instance : Patch.t) :
  match PatchListSerializer.get_tags instance with
  | Return _ =>
      ∀ x, In x (Project.tags (Patch.project instance)) →
           is_Some (Patch.attrs instance !! Tag.attr_name x)
  | Raise e =>
      e = AttributeError
      ∧ ∃ x, In x (Project.tags (Patch.project instance))
             ∧ Patch.attrs instance !! Tag.attr_name x = None
  end.
Proof.
  unfold PatchListSerializer.get_tags.
  destruct (Project.tags (Patch.project instance)) as [|x tags]; [intros ? []|].
  pose proof (tags_dict_outcome instance (x :: tags) ∅) as H.
  by destruct (PatchListSerializer.tags_dict instance (x :: tags) ∅).
Qed.

(** X12.  When several tags of the project have the same name, the
    dictionary of [get_tags] holds, under that name, the count of the last
    of them. *)
Theorem get_tags_last_tag_wins
    (instance : Patch.t) (before : list Tag.t) (x : Tag.t) (after : list Tag.t)
    (d : gmap string pyvalue) :
  Project.tags (Patch.project instance) = before ++ x :: after →
  ¬ In (Tag.name x) (map Tag.name after) →
  PatchListSerializer.get_tags instance = Return (PyDict d) →
  d !! Tag.name x = Patch.attrs instance !! Tag.attr_name x.
Proof.
  unfold PatchListSerializer.get_tags. intros -> Hafter.
  destruct (before ++ x :: after) as [|y tags] eqn:Htags.
  { by destruct before. }
  rewrite <- Htags.
  destruct (PatchListSerializer.tags_dict instance _ ∅) as [d'|] eqn:Hd;
    [|done].
  cbn. intros [= <-]. by apply (tags_dict_last instance before x after ∅).
Qed.

Lemma get_tags_last_tag_wins_witness :
  (<["reviewed" := PyInt 5]> (<["reviewed" := PyInt 3]> ∅) : gmap string pyvalue)
    !! "reviewed"
  = Some (PyInt 5).
Proof.
  exact (get_tags_last_tag_wins
           (Patch.Build 7
              (Project.Build [ Tag.Build "reviewed" "tag_1_count";
                               Tag.Build "reviewed" "tag_9_count" ])
              (State.Build 1 "New") None PyNone "/patch/7/mbox/"
              (<["tag_1_count" := PyInt 3]> (<["tag_9_count" := PyInt 5]> ∅)))
           [Tag.Build "reviewed" "tag_1_count"]
           (Tag.Build "reviewed" "tag_9_count") []
           (<["reviewed" := PyInt 5]> (<["reviewed" := PyInt 3]> ∅))
           eq_refl (fun H : False => H) eq_refl).
Defined.

(** X13.  Without a request in the serializer context [get_mbox] and
    [get_checks] raise [AttributeError], and neither the list nor the
    detail representation of any patch is returned. *)
Theorem representation_needs_request
    (fw : Framework) (ctx : Context) (instance : Patch.t) :
  request ctx = None →
  PatchListSerializer.get_mbox ctx instance = Raise AttributeError
  ∧ PatchListSerializer.get_checks fw ctx instance = Raise AttributeError
  ∧ (∃ e, list_representation fw ctx instance = Raise e)
  ∧ (∃ e, detail_representation fw ctx instance = Raise e).
Proof.
  intros Hreq.
  assert (PatchListSerializer.get_mbox ctx instance = Raise AttributeError)
    as Hmbox by (unfold PatchListSerializer.get_mbox; by rewrite Hreq).
  split; [done|].
  split; [unfold PatchListSerializer.get_checks; by rewrite Hreq|].
  split.
  - apply (to_representation_raises _ _ _ "mbox" AttributeError);
      [cbn; tauto|done].
  - apply (to_representation_raises _ _ _ "mbox" AttributeError);
      [cbn; tauto|done].
Qed.

Lemma representation_needs_request_witness :
  PatchListSerializer.get_mbox {| request := None |} sample_patch
  = Raise AttributeError
  ∧ PatchListSerializer.get_checks sample_framework {| request := None |} sample_patch
    = Raise AttributeError
  ∧ (∃ e, list_representation sample_framework {| request := None |} sample_patch
          = Raise e)
  ∧ (∃ e, detail_representation sample_framework {| request := None |} sample_patch
          = Raise e).
Proof.
  apply (representation_needs_request sample_framework {| request := None |}
           sample_patch).
  reflexivity.
Defined.

(** X14.  The detail serializer extends the list serializer: when the
    detail representation of a patch is returned, so is its list
    representation, and the detail representation is the list
    representation followed by [headers], as [get_headers] gives it, and by
    the model fields [content] and [diff]. *)
Theorem detail_extends_list
    (fw : Framework) (ctx : Context) (instance : Patch.t)
    (rd : list (string * pyvalue)) :
  detail_representation fw ctx instance = Return rd →
  ∃ rl h c d,
    list_representation fw ctx instance = Return rl
    ∧ PatchDetailSerializer.get_headers fw instance = Return h
    ∧ model_field fw "content" instance = Return c
    ∧ model_field fw "diff" instance = Return d
    ∧ rd = rl ++ [("headers", h); ("content", c); ("diff", d)].
Proof.
  unfold detail_representation, PatchDetailSerializer.Meta.fields.
  rewrite to_representation_app.
  rewrite (to_representation_ext (PatchDetailSerializer.field_value fw ctx)
             (PatchListSerializer.field_value fw ctx)
             PatchListSerializer.Meta.fields).
  2:{ intros f Hf. cbn in Hf.
      repeat (destruct Hf as [<-|Hf]; [reflexivity|]). destruct Hf. }
  fold (list_representation fw ctx instance).
  destruct (list_representation fw ctx instance) as [rl|]; [|done].
  cbn [mbind result_bind]. unfold Serializer.to_representation.
  cbn [mapM]. change (PatchDetailSerializer.field_value fw ctx "headers" instance)
    with (PatchDetailSerializer.get_headers fw instance).
  change (PatchDetailSerializer.field_value fw ctx "content" instance)
    with (model_field fw "content" instance).
  change (PatchDetailSerializer.field_value fw ctx "diff" instance)
    with (model_field fw "diff" instance).
  destruct (PatchDetailSerializer.get_headers fw instance) as [h|]; [|done].
  destruct (model_field fw "content" instance) as [c|]; [|done].
  destruct (model_field fw "diff" instance) as [d|]; [|done].
  cbn. intros [= <-]. by exists rl, h, c, d.
Qed.

Lemma detail_extends_list_witness :
  ∃ rl h c d,
    list_representation sample_framework sample_context sample_patch = Return rl
    ∧ detail_representation sample_framework sample_context sample_patch
      = Return (rl ++ [("headers", h); ("content", c); ("diff", d)]).
Proof.
  destruct (detail_extends_list sample_framework sample_context sample_patch
              _ eq_refl) as (rl & h & c & d & Hl & _ & _ & _ & Hrd).
  exists rl, h, c, d. split; [exact Hl|]. by rewrite <- Hrd.
Defined.

(* ===================================================================== *)
(** ** Further properties of updates *)
(* ===================================================================== *)

Section MoreUpdateFacts.

Variable fw : Framework.
Variable queryset : list State.t.

(** Dropping entries of the body under other names does not change what a
    field reads from it. *)
Lemma get_value_filter (keep : string → bool) data f :
  keep f = true →
  Serializer.get_value (List.filter (fun kv => keep (fst kv)) data) f
  = Serializer.get_value data f.
Proof.
  intros Hf. unfold Serializer.get_value. f_equal.
  induction data as [|[k v] data IH]; [done|]. cbn.
  destruct (String.eqb_spec k f) as [->|Hne].
  - rewrite Hf. cbn. by rewrite String.eqb_refl.
  - destruct (keep k); cbn; [|done].
    by apply String.eqb_neq in Hne as ->.
Qed.

(** Validation reads the body only at the writable fields. *)
Lemma run_validation_ext partial writable data data' :
  (∀ f, In f writable →
        Serializer.get_value data f = Serializer.get_value data' f) →
  Serializer.run_validation fw queryset partial writable data
  = Serializer.run_validation fw queryset partial writable data'.
Proof.
  induction writable as [|f writable IH]; intros Hext; [done|].
  cbn. rewrite <- (Hext f) by (by left).
  rewrite IH by (intros g Hg; apply Hext; by right). done.
Qed.

(** Storing what a patch already holds leaves the patch as it is. *)
Lemma update_fixed validated_data instance :
  (∀ f v, In (f, StoredAttr v) validated_data →
          Patch.attrs instance !! f = Some v) →
  (∀ f st, In (f, StoredState st) validated_data → Patch.state instance = st) →
  Serializer.update instance validated_data = instance.
Proof.
  induction validated_data as [|[g x] vd IH]; intros Hattr Hstate; [done|].
  rewrite update_cons.
  assert (setattr instance g x = instance) as ->.
  { destruct x as [st|v]; cbn.
    - rewrite <- (Hstate g st) by (by left). by destruct instance.
    - rewrite insert_id by (apply Hattr; by left). by destruct instance. }
  apply IH.
  - intros f v Hin. apply Hattr. by right.
  - intros f st Hin. apply (Hstate f). by right.
Qed.



End MoreUpdateFacts.

(** X15.  An update reads the request body at the five writable fields
    only: entries under any other name, read-only or unknown, change
    neither whether the update is accepted nor what it does. *)
Theorem update_ignores_other_entries
    (fw : Framework) (queryset : list State.t) (partial : bool)
    (instance : Patch.t) (data : list (string * pyvalue)) :
  list_update fw queryset partial instance data
  = list_update fw queryset partial instance
      (List.filter
         (fun kv => existsb (String.eqb (fst kv))
                      ("commit_ref" :: "pull_url" :: "state" :: "archived"
                       :: ["delegate"]))
         data).
Proof.
  unfold list_update, Serializer.perform_update. rewrite list_writable_fields.
  rewrite (run_validation_ext fw queryset partial _ data
             (List.filter
                (fun kv => existsb (String.eqb (fst kv))
                             ("commit_ref" :: "pull_url" :: "state" :: "archived"
                              :: ["delegate"]))
                data)); [done|].
  intros f Hf. symmetry.
  apply (get_value_filter
           (fun k => existsb (String.eqb k)
                       ("commit_ref" :: "pull_url" :: "state" :: "archived"
                        :: ["delegate"]))).
  cbn in Hf. by destruct Hf as [<-|[<-|[<-|[<-|[<-|[]]]]]].
Qed.



(** X17.  An accepted update is idempotent: applying the same body to the
    patch it returned is accepted again and returns that patch. *)
Theorem update_idempotent
    (fw : Framework) (queryset : list State.t) (partial : bool)
    (instance : Patch.t) (data : list (string * pyvalue)) (instance' : Patch.t) :
  list_update fw queryset partial instance data = Return instance' →
  list_update fw queryset partial instance' data = Return instance'.
Proof.
  unfold list_update, Serializer.perform_update. rewrite list_writable_fields.
  destruct (Serializer.run_validation _ _ _ _ data) as [vd|] eqn:Hvd;
    [|discriminate].
  cbn. intros [= <-]. f_equal.
  destruct (run_validation_spec fw queryset partial _ data vd Hvd)
    as (_ & _ & Hnd).
  assert (List.NoDup (map fst vd)) as Hnodup.
  { apply Hnd. repeat (constructor; [cbn; intuition discriminate|]). constructor. }
  apply update_fixed.
  - intros f v Hin. by apply update_attrs_set.
  - intros f st Hin.
    assert (f = "state") as ->.
    { destruct (validated_shape fw queryset partial data vd f _ Hvd Hin)
        as (? & _ & [[-> _]|[_ (? & _ & [=])]]). done. }
    apply (update_state_set vd instance "state" st); [done| |done].
    intros g st' Hg.
    destruct (validated_shape fw queryset partial data vd g _ Hvd Hg)
      as (? & _ & [[-> _]|[_ (? & _ & [=])]]). done.
Qed.

Lemma update_idempotent_witness :
  list_update sample_framework sample_states true
    (setattr (setattr sample_patch "commit_ref" (StoredAttr (PyStr "abc123")))
       "state" (StoredState (State.Build 3 "Accepted")))
    [("commit_ref", PyStr "abc123"); ("state", PyStr "accepted")]
  = Return
      (setattr (setattr sample_patch "commit_ref" (StoredAttr (PyStr "abc123")))
         "state" (StoredState (State.Build 3 "Accepted"))).
Proof.
  apply (update_idempotent sample_framework sample_states true sample_patch).
  reflexivity.
Defined.

(* ===================================================================== *)
(** ** The query sets of the views *)
(* ===================================================================== *)

(** X18.  The list view asks for what the detail view asks for, with the
    columns [content], [diff] and [headers] deferred.  The deferred columns
    are exactly the fields that the detail serializer has and the list
    serializer has not, so no field of the list representation is a
    deferred column; the detail view defers nothing. *)
Theorem list_defers_detail_only_fields (column : string) :
  PatchList.get_queryset
  = QuerySet.defer [ "content"; "diff"; "headers" ] PatchDetail.get_queryset
  ∧ QuerySet.loads PatchDetail.get_queryset column = true
  ∧ (QuerySet.loads PatchList.get_queryset column = false
     ↔ In column PatchDetailSerializer.Meta.fields
       ∧ ¬ In column PatchListSerializer.Meta.fields)
  ∧ (In column PatchListSerializer.Meta.fields →
     QuerySet.loads PatchList.get_queryset column = true).
Proof.
  split; [done|]. split; [done|].
  assert (QuerySet.loads PatchList.get_queryset column = false
          ↔ In column ["content"; "diff"; "headers"]) as Hdef.
  { unfold QuerySet.loads. rewrite negb_false_iff, existsb_exists. cbn. split.
    - intros (x & Hx & ->%String.eqb_eq). tauto.
    - intros Hin. exists column. split; [tauto|apply String.eqb_refl]. }
  split.
  - rewrite Hdef. unfold PatchDetailSerializer.Meta.fields. split.
    + intros Hin. split; [apply in_or_app; right; cbn in *; tauto|].
      cbn in Hin. destruct Hin as [<-|[<-|[<-|[]]]];
        cbn; intuition discriminate.
    + intros [[Hl|Hd]%in_app_or Hnot]; [done|]. cbn in *. tauto.
  - intros Hin. apply not_false_iff_true. intros Hl.
    apply Hdef in Hl. cbn in Hl. destruct Hl as [<-|[<-|[<-|[]]]];
      cbn in Hin; intuition discriminate.
Qed.

(** Every field by which the list view orders or searches is a field of the
    list representation, and none of them is a deferred column. *)
Lemma ordering_and_search_fields_are_listed (f : string) :
  In f PatchList.ordering_fields ∨ In f PatchList.search_fields →
  In f PatchListSerializer.Meta.fields
  ∧ QuerySet.loads PatchList.get_queryset f = true.
Proof.
  intros [Hf|Hf]; cbn in Hf;
    repeat (destruct Hf as [<-|Hf]; [split; [cbn; tauto|reflexivity]|]);
    destruct Hf.
Qed.
